(** * Application-specific passwords: the HTTP handlers of lib/api/asps.js

    A shallow embedding of the three restify handlers of [lib/api/asps.js]
    (list, create and delete application-specific passwords) together with
    the fragment of JavaScript and of the Joi schema language they rely on.

    - [JS]      values, truthiness, [||] and the string built-ins used.
    - [Joi]     the three request schemas, as validation functions.
    - [Mongo]   the two collections the handlers query.
    - [Asps]    the handlers, written in a state monad that threads the
                database and records every call made to a collaborator. *)

From Stdlib Require Import List String Ascii Bool ZArith NArith Lia.
From Stdlib Require Import Permutation Sorted.
Import ListNotations.
Local Open Scope string_scope.
Set Warnings "-register-all".

(** ** The JavaScript fragment *)

Module JS.

(** A 12-byte MongoDB ObjectID, as the number its 24 hex digits denote.
    MongoDB orders ObjectIDs bytewise, which is the order of these numbers. *)
Definition ObjectID := N.

(** JavaScript values. A string is the sequence of its code units; the
    development only handles code units below 256. [VDate] carries the
    milliseconds of a [Date]. *)
Inductive value : Type :=
| VUndef
| VNull
| VBool (b : bool)
| VNum (n : Z)
| VStr (s : string)
| VOid (o : ObjectID)
| VDate (ms : Z)
| VArr (items : list value)
| VObj (props : list (string * value)).

(** ToBoolean. *)
Definition truthy (v : value) : bool :=
  match v with
  | VUndef | VNull => false
  | VBool b => b
  | VNum n => negb (n =? 0)%Z
  | VStr s => negb (s =? "")
  | VOid _ | VDate _ | VArr _ | VObj _ => true
  end.

(** [a || b] *)
Definition or (a b : value) : value := if truthy a then a else b.

(** Property read [o.k] on an object; [undefined] when the key is missing or
    the receiver is not an object literal. *)
Fixpoint assoc {A} (k : string) (props : list (string * A)) : option A :=
  match props with
  | [] => None
  | (k', v) :: rest => if k' =? k then Some v else assoc k rest
  end.

Definition get (k : string) (v : value) : value :=
  match v with
  | VObj props => match assoc k props with Some x => x | None => VUndef end
  | _ => VUndef
  end.

(** [k in o] for an object literal. *)
Definition has_key (k : string) (v : value) : bool :=
  match v with
  | VObj props => match assoc k props with Some _ => true | None => false end
  | _ => false
  end.

Definition keys (v : value) : list string :=
  match v with
  | VObj props => map fst props
  | _ => []
  end.

(** *** Strings *)

(** White space as [String.prototype.trim] sees it, among code units below
    256: TAB, LF, VT, FF, CR, SPACE and NBSP. *)
Definition is_space (c : ascii) : bool :=
  let n := nat_of_ascii c in
  ((9 <=? n) && (n <=? 13) || (n =? 32) || (n =? 160))%nat.

Fixpoint trimStart (s : string) : string :=
  match s with
  | EmptyString => EmptyString
  | String c r => if is_space c then trimStart r else s
  end.

Fixpoint trimEnd (s : string) : string :=
  match s with
  | EmptyString => EmptyString
  | String c r =>
      match trimEnd r with
      | EmptyString => if is_space c then EmptyString else String c EmptyString
      | r' => String c r'
      end
  end.

(** [s.trim()] *)
Definition trim (s : string) : string := trimEnd (trimStart s).

(** [s.split(',')] *)
Fixpoint split_comma (s : string) : list string :=
  match s with
  | EmptyString => [EmptyString]
  | String c r =>
      if (c =? ",")%char then EmptyString :: split_comma r
      else match split_comma r with
           | h :: t => String c h :: t
           | [] => [String c EmptyString]
           end
  end.

(** [c.toLowerCase()] on one code unit below 256: A-Z and the Latin-1
    capitals 192-222 (215, the multiplication sign, excepted). *)
Definition lower_char (c : ascii) : ascii :=
  let n := nat_of_ascii c in
  if ((65 <=? n) && (n <=? 90)
      || (192 <=? n) && (n <=? 222) && negb (n =? 215))%nat
  then ascii_of_nat (n + 32) else c.

Fixpoint toLowerCase (s : string) : string :=
  match s with
  | EmptyString => EmptyString
  | String c r => String (lower_char c) (toLowerCase r)
  end.

(** [arr.includes(x)] on an array of strings. *)
Definition includes (xs : list string) (x : string) : bool :=
  existsb (fun y => y =? x) xs.

(** [s.replace(/\{email\}/g, by)]. The pattern has no capture group, so of
    the replacement patterns only [$$], [$&], [$`] and [$'] are special;
    [before] and [after] are the parts of the subject around the match. *)
Fixpoint expand (by_ matched before after : string) : string :=
  match by_ with
  | EmptyString => EmptyString
  | String "$" (String "$" r) => String "$" (expand r matched before after)
  | String "$" (String "&" r) => matched ++ expand r matched before after
  | String "$" (String "`" r) => before ++ expand r matched before after
  | String "$" (String "'" r) => after ++ expand r matched before after
  | String c r => String c (expand r matched before after)
  end.

Definition pat_email : string := "{email}".

Fixpoint drop (n : nat) (s : string) : string :=
  match n, s with
  | O, _ => s
  | S n', String _ r => drop n' r
  | S _, EmptyString => EmptyString
  end.

(** One left-to-right scan of the subject. [skip] counts the code units of
    the current match still to be consumed; [seen] is the part of the subject
    already scanned. *)
Fixpoint replace_scan (skip : nat) (seen s by_ : string) : string :=
  match s with
  | EmptyString => EmptyString
  | String c r =>
      let seen' := seen ++ String c EmptyString in
      match skip with
      | S k => replace_scan k seen' r by_
      | O =>
          if prefix pat_email s then
            expand by_ pat_email seen (drop (length pat_email) s)
              ++ replace_scan (length pat_email - 1) seen' r by_
          else String c (replace_scan 0 seen' r by_)
      end
  end.

Definition replace_email (s by_ : string) : string :=
  replace_scan 0 EmptyString s by_.

(** [new ObjectID(hex)]: the number written by the hex digits. *)
Definition hex_digit (c : ascii) : option N :=
  let n := N_of_ascii c in
  if ((48 <=? n) && (n <=? 57))%N then Some (n - 48)%N
  else if ((97 <=? n) && (n <=? 102))%N then Some (n - 87)%N
  else if ((65 <=? n) && (n <=? 70))%N then Some (n - 55)%N
  else None.

Fixpoint hex_value (acc : N) (s : string) : N :=
  match s with
  | EmptyString => acc
  | String c r =>
      hex_value (16 * acc + match hex_digit c with Some d => d | None => 0 end)%N r
  end.

Definition new_ObjectID (hex : string) : ObjectID := hex_value 0%N hex.

(** The value of a character as a hex digit, and the sixteen lower-case
    hex digits. *)
Definition digit (c : ascii) : N :=
  match hex_digit c with Some d => d | None => 0%N end.

Definition lower_hex : list ascii := list_ascii_of_string "0123456789abcdef".

(** [buffer.toString('base64')] *)
Definition base64_char (n : N) : ascii :=
  if (n <? 26)%N then ascii_of_N (65 + n)
  else if (n <? 52)%N then ascii_of_N (97 + (n - 26))
  else if (n <? 62)%N then ascii_of_N (48 + (n - 52))
  else if (n =? 62)%N then "+"%char else "/"%char.

Fixpoint base64_bytes (l : list N) : string :=
  match l with
  | [] => EmptyString
  | [a] =>
      String (base64_char (a / 4)) (String (base64_char (a mod 4 * 16)) "==")
  | [a; b] =>
      String (base64_char (a / 4))
        (String (base64_char (a mod 4 * 16 + b / 16))
           (String (base64_char (b mod 16 * 4)) "="))
  | a :: b :: c :: r =>
      String (base64_char (a / 4))
        (String (base64_char (a mod 4 * 16 + b / 16))
           (String (base64_char (b mod 16 * 4 + c / 64))
              (String (base64_char (c mod 64)) (base64_bytes r))))
  end%N.

Definition base64 (buffer : string) : string :=
  base64_bytes (map N_of_ascii (list_ascii_of_string buffer)).

End JS.
Import JS.

(** ** The request schemas

    [Joi.validate(req.params, schema, {abortEarly: false, convert: true})]
    for the three schemas of the file. A validation function returns the
    converted value ([result.value]) or [None] when [result.error] is set.
    A request is the list of the properties of [req.params]. *)

Module Joi.

Definition params := list (string * value).

Definition param (k : string) (p : params) : value :=
  match assoc k p with Some v => v | None => VUndef end.

(** [Joi.object().keys({...})] rejects a key the schema does not name. *)
Definition only_keys (known : list string) (p : params) : bool :=
  forallb (fun k => includes known k) (map fst p).

(** [/^[a-f0-9]+$/i] *)
Definition is_hex (s : string) : bool :=
  negb (s =? "")
  && forallb (fun c => match hex_digit c with Some _ => true | None => false end)
       (list_ascii_of_string s).

(** [Joi.string().hex().lowercase().length(24).required()]: the empty
    string is refused, the value is lower-cased ([convert]), then tested. *)
Definition hex24 (v : value) : option string :=
  match v with
  | VStr s =>
      let s' := toLowerCase s in
      if negb (s =? "") && is_hex s' && (length s' =? 24)%nat then Some s' else None
  | _ => None
  end.

(** [Joi.string().trim().max(255).required()]: the empty string is refused
    before and after trimming. *)
Definition trimmed_max255 (v : value) : option string :=
  match v with
  | VStr s =>
      let s' := trim s in
      if negb (s =? "") && negb (s' =? "") && (length s' <=? 255)%nat
      then Some s' else None
  | _ => None
  end.

(** [Joi.string().max(255)], optional. *)
Definition opt_max255 (v : value) : option (option string) :=
  match v with
  | VUndef => Some None
  | VStr s => if negb (s =? "") && (length s <=? 255)%nat then Some (Some s) else None
  | _ => None
  end.

(** [Joi.string().ip({version: ['ipv4', 'ipv6'], cidr: 'forbidden'})],
    optional; [ip_address] is the address pattern Joi builds for it. *)
Definition opt_ip (ip_address : string -> bool) (v : value) : option (option string) :=
  match v with
  | VUndef => Some None
  | VStr s => if negb (s =? "") && ip_address s then Some (Some s) else None
  | _ => None
  end.

(** Items of [Joi.string().valid(...consts.SCOPES, '*')]. *)
Fixpoint valid_items (allowed : list string) (items : list value) : option (list string) :=
  match items with
  | [] => Some []
  | VStr s :: rest =>
      if includes allowed s then
        match valid_items allowed rest with
        | Some r => Some (s :: r)
        | None => None
        end
      else None
  | _ :: _ => None
  end.

Fixpoint unique (xs : list string) : bool :=
  match xs with
  | [] => true
  | x :: r => negb (includes r x) && unique r
  end.

(** [Joi.array().items(Joi.string().valid(...).required()).unique()],
    optional. The item type is [required()], so an array needs at least one
    matching item: the empty array is refused. Under [convert] Joi would try
    [JSON.parse] on a string; the create handler never hands it one
    (see [Asps.split_scopes]). *)
Definition opt_scopes (SCOPES : list string) (v : value) : option (option (list string)) :=
  match v with
  | VUndef => Some None
  | VArr items =>
      match valid_items (SCOPES ++ ["*"]) items with
      | Some (x :: r) => if unique (x :: r) then Some (Some (x :: r)) else None
      | _ => None
      end
  | _ => None
  end.

(** [Joi.boolean().truthy(['Y', 'true', 'yes', 'on', 1])
       .falsy(['N', 'false', 'no', 'off', 0, '']).default(false)].
    A boolean schema compares strings case-insensitively. *)
Definition truthy_strings : list string := ["Y"; "true"; "yes"; "on"].
Definition falsy_strings : list string := ["N"; "false"; "no"; "off"; ""].

Definition boolish (v : value) : option bool :=
  match v with
  | VUndef => Some false
  | VBool b => Some b
  | VStr s =>
      let n := toLowerCase s in
      if includes (map toLowerCase truthy_strings) n then Some true
      else if includes (map toLowerCase falsy_strings) n then Some false
      else None
  | VNum 1 => Some true
  | VNum 0 => Some false
  | _ => None
  end.

End Joi.

(** ** The database *)

(** A JavaScript [Error]: the handlers read [err.message] only. *)
Record Error := { message : string; code : value }.

Module User.
(** A document of the [users] collection, under the projection the handlers
    ask for. *)
Record doc := { _id : ObjectID; username : string; name : string; address : string }.
End User.

Module Asp.
(** A document of the [asps] collection: the fields the list handler reads
    and queries by, and the stored credential ([secret]), which it does not
    read. [used] and [authEvent] hold [false] until the first login. *)
Record doc := {
  _id : ObjectID;
  user : ObjectID;
  description : string;
  scopes : list string;
  used : value;
  authEvent : value;
  created : value;
  secret : string
}.
End Asp.

Module Mongo.

(** [failure], when set, is the driver error every query hands to its
    callback as [err]. [issued] is the greatest ObjectID generated so far:
    an ObjectID is generated once and not again, also after the document
    that had it is gone. The handlers read neither. *)
Record db := {
  users : list User.doc;
  asps : list Asp.doc;
  failure : option Error;
  issued : ObjectID
}.

(** [.sort({ _id: 1 })] *)
Fixpoint insert_by_id (a : Asp.doc) (l : list Asp.doc) : list Asp.doc :=
  match l with
  | [] => [a]
  | b :: r => if (Asp._id a <=? Asp._id b)%N then a :: l else b :: insert_by_id a r
  end.

Fixpoint sort_by_id (l : list Asp.doc) : list Asp.doc :=
  match l with
  | [] => []
  | a :: r => insert_by_id a (sort_by_id r)
  end.

(** Ascending order of [_id]. *)
Definition id_le (a b : Asp.doc) : Prop := (Asp._id a <= Asp._id b)%N.

(** [db.users.collection('users').findOne({ _id: user }, ...)] *)
Definition users_findOne (d : db) (user : ObjectID) : Error + option User.doc :=
  match failure d with
  | Some err => inl err
  | None => inr (find (fun u => (User._id u =? user)%N) (users d))
  end.

(** [db.users.collection('asps').find({ user }).sort({ _id: 1 }).toArray(...)] *)
Definition asps_find (d : db) (user : ObjectID) : Error + option (list Asp.doc) :=
  match failure d with
  | Some err => inl err
  | None => inr (Some (sort_by_id (filter (fun a => (Asp.user a =? user)%N) (asps d))))
  end.

End Mongo.

(** ** Configuration and the profile options *)

Module Config.
(** [config.imap] and [config.smtp]: [setup.hostname], [setup.port],
    [setup.secure] and [port]. *)
Record server := {
  setup_hostname : value;
  setup_port : value;
  setup_secure : value;
  port : value
}.
(** [api_mobileconfig] is [config.api.mobileconfig], [None] when it is not
    set; the values of the template are strings. *)
Record t := {
  api_mobileconfig : option (list (string * string));
  imap : server;
  smtp : server
}.
End Config.

Module Mobileconfig.
Record account := {
  hostname : value;
  port : value;
  secure : value;
  username : value;
  password : value
}.
(** The [options] object handed to [mobileconfig.getSignedEmailConfig]. *)
Record options := {
  displayName : value;
  displayDescription : value;
  accountDescription : value;
  emailAddress : value;
  emailAccountName : value;
  identifier : value;
  imap : account;
  smtp : account;
  keys : value
}.
End Mobileconfig.

(** ** Validated requests *)

Module GetASPs.
Record value := { user : string }.
Definition known := ["user"].
Definition validate (p : Joi.params) : option value :=
  if Joi.only_keys known p then
    match Joi.hex24 (Joi.param "user" p) with
    | Some u => Some {| user := u |}
    | None => None
    end
  else None.
End GetASPs.

Module PostASP.
Record value := {
  user : string;
  description : string;
  scopes : option (list string);
  generateMobileconfig : bool;
  sess : option string;
  ip : option string
}.
Definition known := ["user"; "description"; "scopes"; "generateMobileconfig"; "sess"; "ip"].
Definition validate (SCOPES : list string) (ip_address : string -> bool)
    (p : Joi.params) : option value :=
  if Joi.only_keys known p then
    match Joi.hex24 (Joi.param "user" p),
          Joi.trimmed_max255 (Joi.param "description" p),
          Joi.opt_scopes SCOPES (Joi.param "scopes" p),
          Joi.boolish (Joi.param "generateMobileconfig" p),
          Joi.opt_max255 (Joi.param "sess" p),
          Joi.opt_ip ip_address (Joi.param "ip" p) with
    | Some u, Some d, Some sc, Some g, Some se, Some i =>
        Some {| user := u; description := d; scopes := sc;
                generateMobileconfig := g; sess := se; ip := i |}
    | _, _, _, _, _, _ => None
    end
  else None.
End PostASP.

Module DeleteASP.
Record value := {
  user : string;
  asp : string;
  sess : option string;
  ip : option string
}.
Definition known := ["user"; "asp"; "sess"; "ip"].
Definition validate (ip_address : string -> bool) (p : Joi.params) : option value :=
  if Joi.only_keys known p then
    match Joi.hex24 (Joi.param "user" p),
          Joi.hex24 (Joi.param "asp" p),
          Joi.opt_max255 (Joi.param "sess" p),
          Joi.opt_ip ip_address (Joi.param "ip" p) with
    | Some u, Some a, Some se, Some i =>
        Some {| user := u; asp := a; sess := se; ip := i |}
    | _, _, _, _ => None
    end
  else None.
End DeleteASP.

(** ** The handlers *)

Module Asps.

(** What [userHandler.generateASP] hands to its callback on success. *)
Record generated := { id : ObjectID; password : string }.

(** A [Buffer], as the string of its bytes. *)
Definition Buffer := string.

(** [userHandler], the third argument of the module: the two methods the
    handlers call. Both work on the database. *)
Record UserHandler := {
  generateASP :
    ObjectID -> PostASP.value -> Mongo.db -> (Error + generated) * Mongo.db;
  deleteASP :
    ObjectID -> ObjectID -> DeleteASP.value -> Mongo.db -> option Error * Mongo.db
}.

(** Everything the module closes over besides the database. *)
Record Env := {
  SCOPES : list string;                      (* consts.SCOPES *)
  config : Config.t;                         (* wild-config *)
  certs : value;                             (* certs.get('api.mobileconfig') *)
  userHandler : UserHandler;
  getSignedEmailConfig : Mobileconfig.options -> Error + Buffer;
  ip_address : string -> bool;               (* Joi's IP address pattern *)
  joi_message : Joi.params -> string         (* result.error.message *)
}.

(** A call made to a collaborator. *)
Inductive call : Type :=
| call_users_findOne (user : ObjectID)
| call_asps_find (user : ObjectID)
| call_generateASP (user : ObjectID) (data : PostASP.value)
| call_deleteASP (user asp : ObjectID) (data : DeleteASP.value)
| call_getSignedEmailConfig (options : Mobileconfig.options).

(** The state a request runs in: the database and the calls made so far. *)
Record world := { database : Mongo.db; calls : list call }.

(** A handler computes the object it passes to [res.json]. *)
Definition M (A : Type) : Type := world -> A * world.

Definition ret {A} (a : A) : M A := fun w => (a, w).

Definition bind {A B} (m : M A) (k : A -> M B) : M B :=
  fun w => let (a, w') := m w in k a w'.

Notation "x <- m ;; k" := (bind m (fun x => k))
  (at level 61, m at next level, right associativity).

Definition logged (c : call) (w : world) : world :=
  {| database := database w; calls := calls w ++ [c] |}.

Definition obj (props : list (string * value)) : value := VObj props.

(** [req.params.scopes = v] *)
Fixpoint set (k : string) (v : value) (p : Joi.params) : Joi.params :=
  match p with
  | [] => [(k, v)]
  | (k', v') :: rest => if k' =? k then (k, v) :: rest else (k', v') :: set k v rest
  end.

(** Lines 230-235: a comma-delimited [scopes] is split, trimmed and cleared
    of empty tokens before validation. *)
Definition tokens (s : string) : list string :=
  filter (fun scope => negb (scope =? "")) (map trim (split_comma s)).

Definition split_scopes (p : Joi.params) : Joi.params :=
  match Joi.param "scopes" p with
  | VStr s => set "scopes" (VArr (map VStr (tokens s))) p
  | _ => p
  end.

(** Lines 252 and 255-257: [result.value.scopes || ['*']], collapsed to
    [['*']] when it includes the wildcard. An array is truthy, also when
    empty. *)
Definition normalize (requested : option (list string)) : list string :=
  let scopes := match requested with Some l => l | None => ["*"] end in
  if includes scopes "*" then ["*"] else scopes.

(** The test of line 259. *)
Definition profile_conflict (generateMobileconfig : bool) (scopes : list string) : bool :=
  generateMobileconfig && negb (includes scopes "*")
  && (negb (includes scopes "imap") || negb (includes scopes "smtp")).

Definition opt_str (o : option string) : value :=
  match o with Some s => VStr s | None => VUndef end.

(** [x + '.'] for a property that may be [undefined]. *)
Definition concat_str (o : option string) : string :=
  match o with Some s => s | None => "undefined" end.

Section WithEnv.

Variable env : Env.

(** Lines 310-316: every template string with [{email}] replaced by the
    account's address, trimmed. [(v || '').toString()] is [v] on a string. *)
Definition profileOpts (userData : User.doc) : list (string * string) :=
  map (fun kv => (fst kv, trim (replace_email (snd kv) (User.address userData))))
    (match Config.api_mobileconfig (config env) with Some t => t | None => [] end).

(** Lines 318-340. *)
Definition compose (description : string) (userData : User.doc) (result : generated)
  : Mobileconfig.options :=
  let profileOpts := profileOpts userData in
  {| Mobileconfig.displayName :=
       JS.or (VStr description) (opt_str (assoc "displayName" profileOpts));
     Mobileconfig.displayDescription := opt_str (assoc "displayDescription" profileOpts);
     Mobileconfig.accountDescription := opt_str (assoc "accountDescription" profileOpts);
     Mobileconfig.emailAddress := VStr (User.address userData);
     Mobileconfig.emailAccountName := VStr (User.name userData);
     Mobileconfig.identifier :=
       VStr (concat_str (assoc "identifier" profileOpts) ++ "." ++ User.username userData);
     Mobileconfig.imap :=
       {| Mobileconfig.hostname := Config.setup_hostname (Config.imap (config env));
          Mobileconfig.port :=
            JS.or (Config.setup_port (Config.imap (config env)))
                  (Config.port (Config.imap (config env)));
          Mobileconfig.secure := Config.setup_secure (Config.imap (config env));
          Mobileconfig.username := VStr (User.username userData);
          Mobileconfig.password := VStr (password result) |};
     Mobileconfig.smtp :=
       {| Mobileconfig.hostname := Config.setup_hostname (Config.smtp (config env));
          Mobileconfig.port :=
            JS.or (Config.setup_port (Config.smtp (config env)))
                  (Config.port (Config.smtp (config env)));
          Mobileconfig.secure := VBool true;
          Mobileconfig.username := VStr (User.username userData);
          Mobileconfig.password := VBool false |};
     Mobileconfig.keys := certs env |}.

(** *** Calls to the collaborators *)

Definition users_findOne (user : ObjectID) : M (Error + option User.doc) :=
  fun w => (Mongo.users_findOne (database w) user, logged (call_users_findOne user) w).

Definition asps_find (user : ObjectID) : M (Error + option (list Asp.doc)) :=
  fun w => (Mongo.asps_find (database w) user, logged (call_asps_find user) w).

Definition userHandler_generateASP (user : ObjectID) (data : PostASP.value)
  : M (Error + generated) :=
  fun w =>
    let (r, d) := generateASP (userHandler env) user data (database w) in
    (r, {| database := d; calls := calls w ++ [call_generateASP user data] |}).

Definition userHandler_deleteASP (user asp : ObjectID) (data : DeleteASP.value)
  : M (option Error) :=
  fun w =>
    let (r, d) := deleteASP (userHandler env) user asp data (database w) in
    (r, {| database := d; calls := calls w ++ [call_deleteASP user asp data] |}).

Definition mobileconfig_getSignedEmailConfig (options : Mobileconfig.options)
  : M (Error + Buffer) :=
  fun w => (getSignedEmailConfig env options, logged (call_getSignedEmailConfig options) w).

(** *** Responses *)

Definition InputValidationError (p : Joi.params) : value :=
  obj [("error", VStr (joi_message env p)); ("code", VStr "InputValidationError")].

Definition InternalDatabaseError (err : Error) : value :=
  obj [("error", VStr ("MongoDB Error: " ++ message err));
       ("code", VStr "InternalDatabaseError")].

Definition UserNotFound : value :=
  obj [("error", VStr "This user does not exist"); ("code", VStr "UserNotFound")].

Definition failed (err : Error) : value := obj [("error", VStr (message err))].

Definition scope_conflict : value :=
  obj [("error", VStr "Profile file requires imap and smtp scopes")].

(** Lines 133-142. *)
Definition summary (asp : Asp.doc) : value :=
  obj [("id", VOid (Asp._id asp));
       ("description", VStr (Asp.description asp));
       ("scopes", VArr (map VStr (Asp.scopes asp)));
       ("lastUse", obj [("time", JS.or (Asp.used asp) (VBool false));
                        ("event", JS.or (Asp.authEvent asp) (VBool false))]);
       ("created", Asp.created asp)].

(** *** GET /users/:user/asps *)

Definition list_asps (params : Joi.params) : M value :=
  match GetASPs.validate params with
  | None => ret (InputValidationError params)
  | Some value =>
      let user := new_ObjectID (GetASPs.user value) in
      r <- users_findOne user ;;
      match r with
      | inl err => ret (InternalDatabaseError err)
      | inr None => ret UserNotFound
      | inr (Some userData) =>
          r <- asps_find user ;;
          match r with
          | inl err => ret (InternalDatabaseError err)
          | inr found =>
              let asps := match found with Some l => l | None => [] end in
              ret (obj [("success", VBool true); ("results", VArr (map summary asps))])
          end
      end
  end.

(** *** POST /users/:user/asps *)

Definition create_asp (params : Joi.params) : M value :=
  let params := split_scopes params in
  match PostASP.validate (SCOPES env) (ip_address env) params with
  | None => ret (InputValidationError params)
  | Some value =>
      let user := new_ObjectID (PostASP.user value) in
      let generateMobileconfig := PostASP.generateMobileconfig value in
      let scopes := normalize (PostASP.scopes value) in
      let description := PostASP.description value in
      if profile_conflict generateMobileconfig scopes then ret scope_conflict
      else
        r <- users_findOne user ;;
        match r with
        | inl err => ret (InternalDatabaseError err)
        | inr None => ret UserNotFound
        | inr (Some userData) =>
            r <- userHandler_generateASP user value ;;
            match r with
            | inl err => ret (failed err)
            | inr result =>
                if negb generateMobileconfig then
                  ret (obj [("success", VBool true);
                            ("id", VOid (id result));
                            ("password", VStr (password result))])
                else
                  let options := compose description userData result in
                  s <- mobileconfig_getSignedEmailConfig options ;;
                  match s with
                  | inl err => ret (failed err)
                  | inr data =>
                      ret (obj [("success", VBool true);
                                ("id", VOid (id result));
                                ("password", VStr (password result));
                                ("mobileconfig", VStr (base64 data))])
                  end
            end
        end
  end.

(** *** DELETE /users/:user/asps/:asp *)

Definition delete_asp (params : Joi.params) : M value :=
  match DeleteASP.validate (ip_address env) params with
  | None => ret (InputValidationError params)
  | Some value =>
      let user := new_ObjectID (DeleteASP.user value) in
      let asp := new_ObjectID (DeleteASP.asp value) in
      r <- userHandler_deleteASP user asp value ;;
      match r with
      | Some err => ret (failed err)
      | None => ret (obj [("success", VBool true)])
      end
  end.

End WithEnv.

(** A handler run on a database, from an empty record of calls: the
    response, the database it leaves and the calls it made, in order. *)
Definition run {A} (m : M A) (d : Mongo.db) : A * Mongo.db * list call :=
  let (a, w) := m {| database := d; calls := [] |} in (a, database w, calls w).

(** The eight ways through the create handler. *)
Inductive create_outcome (env : Env) (params : Joi.params) (d : Mongo.db)
  : value -> Mongo.db -> list call -> Prop :=
| created_invalid :
    PostASP.validate (SCOPES env) (ip_address env) (split_scopes params) = None ->
    create_outcome env params d (InputValidationError env (split_scopes params)) d []
| created_conflict value :
    PostASP.validate (SCOPES env) (ip_address env) (split_scopes params) = Some value ->
    profile_conflict (PostASP.generateMobileconfig value)
      (normalize (PostASP.scopes value)) = true ->
    create_outcome env params d scope_conflict d []
| created_db_error value err :
    PostASP.validate (SCOPES env) (ip_address env) (split_scopes params) = Some value ->
    profile_conflict (PostASP.generateMobileconfig value)
      (normalize (PostASP.scopes value)) = false ->
    Mongo.users_findOne d (new_ObjectID (PostASP.user value)) = inl err ->
    create_outcome env params d (InternalDatabaseError err) d
      [call_users_findOne (new_ObjectID (PostASP.user value))]
| created_no_user value :
    PostASP.validate (SCOPES env) (ip_address env) (split_scopes params) = Some value ->
    profile_conflict (PostASP.generateMobileconfig value)
      (normalize (PostASP.scopes value)) = false ->
    Mongo.users_findOne d (new_ObjectID (PostASP.user value)) = inr None ->
    create_outcome env params d UserNotFound d
      [call_users_findOne (new_ObjectID (PostASP.user value))]
| created_mint_failed value userData err d1 :
    let user := new_ObjectID (PostASP.user value) in
    PostASP.validate (SCOPES env) (ip_address env) (split_scopes params) = Some value ->
    profile_conflict (PostASP.generateMobileconfig value)
      (normalize (PostASP.scopes value)) = false ->
    Mongo.users_findOne d user = inr (Some userData) ->
    generateASP (userHandler env) user value d = (inl err, d1) ->
    create_outcome env params d (failed err) d1
      [call_users_findOne user; call_generateASP user value]
| created_plain value userData result d1 :
    let user := new_ObjectID (PostASP.user value) in
    PostASP.validate (SCOPES env) (ip_address env) (split_scopes params) = Some value ->
    PostASP.generateMobileconfig value = false ->
    Mongo.users_findOne d user = inr (Some userData) ->
    generateASP (userHandler env) user value d = (inr result, d1) ->
    create_outcome env params d
      (obj [("success", VBool true); ("id", VOid (id result));
            ("password", VStr (password result))]) d1
      [call_users_findOne user; call_generateASP user value]
| created_sign_failed value userData result d1 err :
    let user := new_ObjectID (PostASP.user value) in
    let options := compose env (PostASP.description value) userData result in
    PostASP.validate (SCOPES env) (ip_address env) (split_scopes params) = Some value ->
    PostASP.generateMobileconfig value = true ->
    profile_conflict true (normalize (PostASP.scopes value)) = false ->
    Mongo.users_findOne d user = inr (Some userData) ->
    generateASP (userHandler env) user value d = (inr result, d1) ->
    getSignedEmailConfig env options = inl err ->
    create_outcome env params d (failed err) d1
      [call_users_findOne user; call_generateASP user value;
       call_getSignedEmailConfig options]
| created_signed value userData result d1 data :
    let user := new_ObjectID (PostASP.user value) in
    let options := compose env (PostASP.description value) userData result in
    PostASP.validate (SCOPES env) (ip_address env) (split_scopes params) = Some value ->
    PostASP.generateMobileconfig value = true ->
    profile_conflict true (normalize (PostASP.scopes value)) = false ->
    Mongo.users_findOne d user = inr (Some userData) ->
    generateASP (userHandler env) user value d = (inr result, d1) ->
    getSignedEmailConfig env options = inr data ->
    create_outcome env params d
      (obj [("success", VBool true); ("id", VOid (id result));
            ("password", VStr (password result));
            ("mobileconfig", VStr (base64 data))]) d1
      [call_users_findOne user; call_generateASP user value;
       call_getSignedEmailConfig options].

(** The three ways through the delete handler. *)
Inductive delete_outcome (env : Env) (params : Joi.params) (d : Mongo.db)
  : value -> Mongo.db -> list call -> Prop :=
| deleted_invalid :
    DeleteASP.validate (ip_address env) params = None ->
    delete_outcome env params d (InputValidationError env params) d []
| deleted_failed value err d1 :
    let user := new_ObjectID (DeleteASP.user value) in
    let asp := new_ObjectID (DeleteASP.asp value) in
    DeleteASP.validate (ip_address env) params = Some value ->
    deleteASP (userHandler env) user asp value d = (Some err, d1) ->
    delete_outcome env params d (failed err) d1 [call_deleteASP user asp value]
| deleted_ok value d1 :
    let user := new_ObjectID (DeleteASP.user value) in
    let asp := new_ObjectID (DeleteASP.asp value) in
    DeleteASP.validate (ip_address env) params = Some value ->
    deleteASP (userHandler env) user asp value d = (None, d1) ->
    delete_outcome env params d (obj [("success", VBool true)]) d1
      [call_deleteASP user asp value].

End Asps.

(** ** The Credential Service *)

Module CredentialService.

(** Modelled from the spec: the id of a new ASP, an "opaque unique
    identifier, assigned at creation", in "insertion/id order": above every
    id in the collection and every id generated before. *)
Definition next_id (d : Mongo.db) : ObjectID :=
  N.succ (N.max (Mongo.issued d) (fold_right N.max 0%N (map Asp._id (Mongo.asps d)))).

(** Modelled from the spec: the scopes of a new ASP, "either the singleton
    wildcard or a subset of the known protocol-scope vocabulary"; "wildcard
    and specific scopes are mutually exclusive - requesting wildcard
    collapses the set", and they "default to wildcard if caller supplies
    none". *)
Definition stored_scopes (requested : option (list string)) : list string :=
  match requested with
  | None | Some [] => ["*"]
  | Some l => if includes l "*" then ["*"] else l
  end.

(** Modelled from the spec: the Credential Service behind [userHandler]
    ([lib/user-handler.js] is not among the sources). It "mint[s] and
    persist[s] the secret" and "returns {id, secret}" or fails; [lastUsed]
    starts unset. [secret] and [now] are the secret it mints and its
    clock. *)

Definition generateASP (secret : string) (now : Z)
    (user : ObjectID) (data : PostASP.value) (d : Mongo.db)
  : (Error + Asps.generated) * Mongo.db :=
  match Mongo.failure d with
  | Some err => (inl err, d)
  | None =>
      let asp :=
        {| Asp._id := next_id d;
           Asp.user := user;
           Asp.description := PostASP.description data;
           Asp.scopes := stored_scopes (PostASP.scopes data);
           Asp.used := VBool false;
           Asp.authEvent := VBool false;
           Asp.created := VDate now;
           Asp.secret := secret |} in
      (inr {| Asps.id := next_id d; Asps.password := secret |},
       {| Mongo.users := Mongo.users d;
          Mongo.asps := Mongo.asps d ++ [asp];
          Mongo.failure := Mongo.failure d;
          Mongo.issued := next_id d |})
  end.

(** Modelled from the spec: deletion "delegates removal to Credential
    Service scoped to (ownerId, aspId); if no such record exists under that
    owner, fails with NotFound". [not_found] is the text of that error. *)
Definition owned (user asp : ObjectID) (a : Asp.doc) : bool :=
  ((Asp._id a =? asp) && (Asp.user a =? user))%N.

Definition deleteASP (not_found : string)
    (user asp : ObjectID) (data : DeleteASP.value) (d : Mongo.db)
  : option Error * Mongo.db :=
  match Mongo.failure d with
  | Some err => (Some err, d)
  | None =>
      if existsb (owned user asp) (Mongo.asps d) then
        (None,
         {| Mongo.users := Mongo.users d;
            Mongo.asps := filter (fun a => negb (owned user asp a)) (Mongo.asps d);
            Mongo.failure := Mongo.failure d;
            Mongo.issued := Mongo.issued d |})
      else (Some {| message := not_found; code := VStr "NotFound" |}, d)
  end.

Definition userHandler (secret : string) (now : Z) (not_found : string)
  : Asps.UserHandler :=
  {| Asps.generateASP := generateASP secret now;
     Asps.deleteASP := deleteASP not_found |}.

End CredentialService.

(** ** A sample deployment

    One account, the scope vocabulary [imap], [pop3], [smtp], and the
    Credential Service above. The sample requests carry no [ip], so the
    address pattern is never consulted. *)

Module Sample.

Definition andris : string := "59fc66a03e54454869460e45".

Definition config : Config.t :=
  {| Config.api_mobileconfig :=
       Some [("displayName", "WildDuck Mail");
             ("displayDescription", "Install this profile to setup {email}");
             ("accountDescription", "WildDuck ({email})");
             ("identifier", "com.wildduck.profile")];
     Config.imap :=
       {| Config.setup_hostname := VStr "imap.example.com";
          Config.setup_port := VNum 993;
          Config.setup_secure := VBool true;
          Config.port := VNum 9993 |};
     Config.smtp :=
       {| Config.setup_hostname := VStr "smtp.example.com";
          Config.setup_port := VNum 587;
          Config.setup_secure := VBool false;
          Config.port := VNum 2587 |} |}.

Definition signing_failed : Error :=
  {| message := "Signing failed"; code := VUndef |}.

Definition env (sign : Mobileconfig.options -> Error + Asps.Buffer) : Asps.Env :=
  {| Asps.SCOPES := ["imap"; "pop3"; "smtp"];
     Asps.config := config;
     Asps.certs := VObj [];
     Asps.userHandler :=
       CredentialService.userHandler "rflhmllyegblyybd" 1511878103520
         "Application Specific Password was not found";
     Asps.getSignedEmailConfig := sign;
     Asps.ip_address := fun _ => false;
     Asps.joi_message := fun _ => "ValidationError" |}.

(** A deployment without a profile template. *)
Definition bare : Asps.Env :=
  {| Asps.SCOPES := ["imap"; "pop3"; "smtp"];
     Asps.config :=
       {| Config.api_mobileconfig := None;
          Config.imap := Config.imap config;
          Config.smtp := Config.smtp config |};
     Asps.certs := VObj [];
     Asps.userHandler :=
       CredentialService.userHandler "rflhmllyegblyybd" 1511878103520
         "Application Specific Password was not found";
     Asps.getSignedEmailConfig := fun _ => inr "signed profile";
     Asps.ip_address := fun _ => false;
     Asps.joi_message := fun _ => "ValidationError" |}.

(** A signer that works and one that fails. *)
Definition signing : Asps.Env := env (fun _ => inr "signed profile").
Definition failing : Asps.Env := env (fun _ => inl signing_failed).

(** A deployment whose Credential Service cannot mint. *)
Definition generation_failed : Error :=
  {| message := "Database Error, failed to generate password";
     code := VStr "InternalDatabaseError" |}.

Definition refusing : Asps.Env :=
  {| Asps.SCOPES := ["imap"; "pop3"; "smtp"];
     Asps.config := config;
     Asps.certs := VObj [];
     Asps.userHandler :=
       {| Asps.generateASP := fun _ _ d => (inl generation_failed, d);
          Asps.deleteASP :=
            CredentialService.deleteASP "Application Specific Password was not found" |};
     Asps.getSignedEmailConfig := fun _ => inr "signed profile";
     Asps.ip_address := fun _ => false;
     Asps.joi_message := fun _ => "ValidationError" |}.

Definition user : User.doc :=
  {| User._id := new_ObjectID andris;
     User.username := "andris";
     User.name := "Andris Reinman";
     User.address := "andris@example.com" |}.

Definition thunderbird (id : ObjectID) : Asp.doc :=
  {| Asp._id := id;
     Asp.user := new_ObjectID andris;
     Asp.description := "Thunderbird";
     Asp.scopes := ["imap"; "smtp"];
     Asp.used := VBool false;
     Asp.authEvent := VBool false;
     Asp.created := VDate 1511878103520;
     Asp.secret := "rflhmllyegblyybd" |}.

(** The account, without and with application passwords; no account. *)
Definition fresh : Mongo.db :=
  {| Mongo.users := [user]; Mongo.asps := []; Mongo.failure := None;
     Mongo.issued := 0%N |}.

Definition stocked : Mongo.db :=
  {| Mongo.users := [user];
     Mongo.asps := [thunderbird 7%N; thunderbird 3%N; thunderbird 5%N];
     Mongo.failure := None;
     Mongo.issued := 7%N |}.

Definition deserted : Mongo.db :=
  {| Mongo.users := []; Mongo.asps := []; Mongo.failure := None;
     Mongo.issued := 0%N |}.

Definition request (scopes : list (string * value)) (profile : bool) : Joi.params :=
  ([("user", VStr andris); ("description", VStr "Thunderbird")]
     ++ scopes ++ [("generateMobileconfig", VBool profile)])%list.

(** What validation makes of [request], and what the Credential Service
    mints on the [fresh] database. *)
Definition validated (scopes : option (list string)) (profile : bool) : PostASP.value :=
  {| PostASP.user := andris;
     PostASP.description := "Thunderbird";
     PostASP.scopes := scopes;
     PostASP.generateMobileconfig := profile;
     PostASP.sess := None;
     PostASP.ip := None |}.

Definition minted : Asps.generated :=
  {| Asps.id := 1%N; Asps.password := "rflhmllyegblyybd" |}.

Definition listing : Joi.params := [("user", VStr andris)].

Definition removal : Joi.params :=
  [("user", VStr andris); ("asp", VStr "5a1d6dd776e56b6d97e5dd48")].

End Sample.

(** ** Properties *)

Import Asps.

(** *** The JavaScript and Joi fragments on examples *)

Example split_comma_tokens :
  split_comma "imap, smtp,,*" = ["imap"; " smtp"; ""; "*"]
  /\ split_comma "" = [""]
  /\ tokens "imap, smtp,,*" = ["imap"; "smtp"; "*"]
  /\ tokens " , " = [].
Proof. repeat split. Qed.

Example replace_email_patterns :
  replace_email "Mail for {email} ({email})" "me@example.com"
  = "Mail for me@example.com (me@example.com)"
  /\ replace_email "x{email}y" "[$`|$'|$&|$$|$1]" = "x[x|y|{email}|$|$1]y"
  /\ replace_email "{email" "me@example.com" = "{email".
Proof. repeat split. Qed.

Example base64_padding :
  base64 "Man" = "TWFu" /\ base64 "Ma" = "TWE=" /\ base64 "M" = "TQ==".
Proof. repeat split. Qed.

Example joi_fields :
  Joi.hex24 (VStr "59FC66A03E54454869460E45") = Some "59fc66a03e54454869460e45"
  /\ Joi.hex24 (VStr "59fc66a0") = None
  /\ Joi.trimmed_max255 (VStr "  Thunderbird ") = Some "Thunderbird"
  /\ Joi.trimmed_max255 (VStr "   ") = None
  /\ Joi.boolish (VStr "YES") = Some true
  /\ Joi.boolish (VStr "") = Some false
  /\ Joi.boolish (VNum 2) = None
  /\ Joi.opt_scopes ["imap"; "pop3"; "smtp"] (VArr [VStr "imap"; VStr "smtp"])
     = Some (Some ["imap"; "smtp"])
  /\ Joi.opt_scopes ["imap"; "pop3"; "smtp"] (VArr [VStr "imap"; VStr "imap"]) = None
  /\ Joi.opt_scopes ["imap"; "pop3"; "smtp"] (VArr [VStr "bogus"]) = None
  /\ Joi.opt_scopes ["imap"; "pop3"; "smtp"] (VArr []) = None.
Proof. repeat split. Qed.

(** *** The runs of the handlers *)

Lemma create_asp_outcome env params d :
  let '(resp, d', made) := run (create_asp env params) d in
  create_outcome env params d resp d' made.
Proof.
  unfold run, create_asp.
  destruct (PostASP.validate _ _ _) as [value|] eqn:V; [|now apply created_invalid].
  destruct (profile_conflict _ _) eqn:C; [eapply created_conflict; eassumption|].
  unfold bind, users_findOne, ret; cbn [database calls logged app].
  destruct (Mongo.users_findOne d _) as [err|[userData|]] eqn:F;
    [now apply created_db_error | | now apply created_no_user].
  unfold userHandler_generateASP; cbn [database calls app].
  destruct (generateASP _ _ _ _) as [[err|result] d1] eqn:G;
    [eapply created_mint_failed; eassumption|].
  destruct (PostASP.generateMobileconfig value) eqn:P; cbn [negb];
    [|eapply created_plain; eassumption].
  unfold mobileconfig_getSignedEmailConfig; cbn [database calls logged app].
  destruct (getSignedEmailConfig env _) as [err|data] eqn:S.
  - eapply created_sign_failed; eassumption.
  - eapply created_signed; eassumption.
Qed.

Lemma delete_asp_outcome env params d :
  let '(resp, d', made) := run (delete_asp env params) d in
  delete_outcome env params d resp d' made.
Proof.
  unfold run, delete_asp.
  destruct (DeleteASP.validate _ _) as [value|] eqn:V; [|now apply deleted_invalid].
  unfold bind, userHandler_deleteASP, ret; cbn [database calls app].
  destruct (deleteASP _ _ _ _ _) as [[err|] d1] eqn:D.
  - now apply deleted_failed.
  - now apply deleted_ok.
Qed.

Lemma includes_In xs x : includes xs x = true <-> In x xs.
Proof.
  unfold includes. rewrite existsb_exists. split.
  - intros (y & Hy & E). apply String.eqb_eq in E. now subst.
  - intros H. exists x. split; [assumption | apply String.eqb_refl].
Qed.

Lemma includes_false xs x : includes xs x = false <-> ~ In x xs.
Proof.
  rewrite <- includes_In. destruct (includes xs x); split; congruence.
Qed.

(** The normalised list holds the wildcard only as the singleton. *)
Lemma normalize_wildcard requested :
  includes (normalize requested) "*" = true -> normalize requested = ["*"].
Proof.
  unfold normalize.
  destruct (includes match requested with Some l => l | None => ["*"] end "*") eqn:E;
    [reflexivity | congruence].
Qed.

Lemma normalize_specific requested :
  normalize requested <> ["*"] -> includes (normalize requested) "*" = false.
Proof.
  intros H. destruct (includes (normalize requested) "*") eqn:E; [|reflexivity].
  now apply normalize_wildcard in E.
Qed.

(** The test of line 259, read as the sentence it encodes. *)
Lemma profile_conflict_true requested :
  normalize requested <> ["*"] ->
  ~ (In "imap" (normalize requested) /\ In "smtp" (normalize requested)) ->
  profile_conflict true (normalize requested) = true.
Proof.
  intros W H. unfold profile_conflict.
  rewrite (normalize_specific _ W). cbn [andb negb].
  destruct (includes (normalize requested) "imap") eqn:I; [|reflexivity].
  destruct (includes (normalize requested) "smtp") eqn:S; [|reflexivity].
  exfalso. apply H. now rewrite <- !includes_In.
Qed.

(** A request in conflict is answered at line 260: the handler returns
    before it has called anything. *)
Lemma conflict_stops env params d value :
  PostASP.validate (SCOPES env) (ip_address env) (split_scopes params) = Some value ->
  profile_conflict (PostASP.generateMobileconfig value)
    (normalize (PostASP.scopes value)) = true ->
  run (create_asp env params) d = (scope_conflict, d, []).
Proof.
  intros V C. unfold run, create_asp. now rewrite V, C.
Qed.

(** Where a run of the create handler reached the signer. *)
Lemma signer_reached env params d resp d' made options :
  create_outcome env params d resp d' made ->
  In (call_getSignedEmailConfig options) made ->
  exists value userData result,
    PostASP.validate (SCOPES env) (ip_address env) (split_scopes params) = Some value
    /\ Mongo.users_findOne d (new_ObjectID (PostASP.user value)) = inr (Some userData)
    /\ generateASP (userHandler env) (new_ObjectID (PostASP.user value)) value d
       = (inr result, d')
    /\ options = compose env (PostASP.description value) userData result
    /\ In (call_generateASP (new_ObjectID (PostASP.user value)) value) made.
Proof.
  intros O I.
  destruct O; cbn [In] in I;
    repeat match goal with
           | H : _ \/ _ |- _ => destruct H
           | H : False |- _ => destruct H
           | H : _ = call_getSignedEmailConfig _ |- _ => inversion H; clear H
           end.
  all: do 3 eexists; repeat split; try eassumption; cbn [In]; auto.
Qed.

(** A description that passed validation is not empty. *)
Lemma validated_description SCOPES ip_address p value :
  PostASP.validate SCOPES ip_address p = Some value -> PostASP.description value <> "".
Proof.
  unfold PostASP.validate. intros V.
  destruct (Joi.only_keys _ _); [|discriminate].
  destruct (Joi.hex24 _); [|discriminate].
  destruct (Joi.trimmed_max255 _) as [desc|] eqn:D; [|discriminate].
  destruct (Joi.opt_scopes _ _); [|discriminate].
  destruct (Joi.boolish _); [|discriminate].
  destruct (Joi.opt_max255 _); [|discriminate].
  destruct (Joi.opt_ip _ _); [|discriminate].
  injection V as <-. cbn [PostASP.description].
  unfold Joi.trimmed_max255 in D.
  destruct (Joi.param "description" p) as [| | | |str| | | |]; try discriminate.
  destruct (negb (str =? "")), (trim str =? "") eqn:T, (length (trim str) <=? 255)%nat;
    cbn [negb andb] in D; try discriminate.
  injection D as <-. now apply String.eqb_neq.
Qed.

(** *** The profile precondition (C2, C10) *)

(** C2. A create request that asks for a profile while its normalised
    scopes are neither the wildcard singleton nor hold both [imap] and
    [smtp] is answered with the scope-conflict error; the database is left
    as it was and no call reaches the Credential Service. *)
Theorem conflict_mints_no_credential env params d value :
  PostASP.validate (SCOPES env) (ip_address env) (split_scopes params) = Some value ->
  PostASP.generateMobileconfig value = true ->
  normalize (PostASP.scopes value) <> ["*"] ->
  ~ (In "imap" (normalize (PostASP.scopes value))
     /\ In "smtp" (normalize (PostASP.scopes value))) ->
  let '(resp, d', made) := run (create_asp env params) d in
  resp = scope_conflict /\ d' = d
  /\ forall user data, ~ In (call_generateASP user data) made.
Proof.
  intros V P W H.
  rewrite (conflict_stops env params d value V).
  - repeat split; auto.
  - rewrite P. now apply profile_conflict_true.
Qed.

(** [conflict_mints_no_credential] on a profile request for [imap] alone. *)
Lemma conflict_mints_no_credential_witness :
  PostASP.validate (SCOPES Sample.failing) (ip_address Sample.failing)
    (split_scopes (Sample.request [("scopes", VStr "imap")] true))
  = Some (Sample.validated (Some ["imap"]) true)
  /\ let '(resp, d', made) :=
       run (create_asp Sample.failing (Sample.request [("scopes", VStr "imap")] true))
         Sample.fresh in
     resp = scope_conflict /\ d' = Sample.fresh
     /\ forall user data, ~ In (call_generateASP user data) made.
Proof.
  split; [reflexivity|].
  apply (conflict_mints_no_credential Sample.failing
           (Sample.request [("scopes", VStr "imap")] true) Sample.fresh
           (Sample.validated (Some ["imap"]) true)).
  - reflexivity.
  - reflexivity.
  - discriminate.
  - cbn. intros [_ [E|[]]]. discriminate E.
Defined.

(** C10. The profile precondition is tested before the owner is looked up:
    whatever the database holds, also when the account does not exist, a
    request in conflict gets the scope-conflict error, which is not the
    [UserNotFound] response, and the [users] collection is not queried. *)
Theorem conflict_precedes_account_lookup env params d value :
  PostASP.validate (SCOPES env) (ip_address env) (split_scopes params) = Some value ->
  PostASP.generateMobileconfig value = true ->
  normalize (PostASP.scopes value) <> ["*"] ->
  ~ (In "imap" (normalize (PostASP.scopes value))
     /\ In "smtp" (normalize (PostASP.scopes value))) ->
  let '(resp, d', made) := run (create_asp env params) d in
  resp = scope_conflict /\ resp <> UserNotFound
  /\ forall user, ~ In (call_users_findOne user) made.
Proof.
  intros V P W H.
  rewrite (conflict_stops env params d value V).
  - repeat split; [discriminate | auto].
  - rewrite P. now apply profile_conflict_true.
Qed.

(** [conflict_precedes_account_lookup] on a database without the account. *)
Lemma conflict_precedes_account_lookup_witness :
  Mongo.users_findOne Sample.deserted (new_ObjectID Sample.andris) = inr None
  /\ let '(resp, d', made) :=
       run (create_asp Sample.failing (Sample.request [("scopes", VStr "pop3, smtp")] true))
         Sample.deserted in
     resp = scope_conflict /\ resp <> UserNotFound
     /\ forall user, ~ In (call_users_findOne user) made.
Proof.
  split; [reflexivity|].
  apply (conflict_precedes_account_lookup Sample.failing
           (Sample.request [("scopes", VStr "pop3, smtp")] true) Sample.deserted
           (Sample.validated (Some ["pop3"; "smtp"]) true)).
  - reflexivity.
  - reflexivity.
  - discriminate.
  - cbn. intros [[E|[E|[]]] _]; discriminate E.
Defined.

(** *** The composed profile (C4, C5, C6) *)

(** C4. Every descriptor the create handler hands to the signer carries, in
    its [imap] block, the password the Credential Service has just returned,
    while the password of its [smtp] block is [false], not that secret. *)
Theorem profile_passwords env params d resp d' made options :
  run (create_asp env params) d = (resp, d', made) ->
  In (call_getSignedEmailConfig options) made ->
  exists user data result,
    In (call_generateASP user data) made
    /\ fst (generateASP (userHandler env) user data d) = inr result
    /\ Mobileconfig.password (Mobileconfig.imap options) = VStr (password result)
    /\ Mobileconfig.password (Mobileconfig.smtp options) = VBool false
    /\ Mobileconfig.password (Mobileconfig.smtp options) <> VStr (password result).
Proof.
  intros R I.
  pose proof (create_asp_outcome env params d) as O. rewrite R in O.
  destruct (signer_reached _ _ _ _ _ _ _ O I) as (v & userData & result & _ & _ & G & E & C).
  exists (new_ObjectID (PostASP.user v)), v, result.
  rewrite G, E. cbn. repeat split; auto. discriminate.
Qed.

(** [profile_passwords] on the descriptor of a profile request that is signed. *)
Lemma profile_passwords_witness :
  let options := compose Sample.signing "Thunderbird" Sample.user Sample.minted in
  exists user data result,
    In (call_generateASP user data)
      (snd (run (create_asp Sample.signing (Sample.request [("scopes", VStr "*")] true))
              Sample.fresh))
    /\ fst (generateASP (userHandler Sample.signing) user data Sample.fresh) = inr result
    /\ Mobileconfig.password (Mobileconfig.imap options) = VStr (password result)
    /\ Mobileconfig.password (Mobileconfig.smtp options) = VBool false
    /\ Mobileconfig.password (Mobileconfig.smtp options) <> VStr (password result).
Proof.
  cbv zeta.
  refine (profile_passwords Sample.signing
            (Sample.request [("scopes", VStr "*")] true) Sample.fresh _ _ _ _ _ _).
  - reflexivity.
  - cbn. right. right. left. reflexivity.
Defined.

(** C5, as amended. The display name of a composed descriptor is the ASP
    description whenever that is not empty; the template's display name
    (with [{email}] substituted, trimmed) is used only for an empty
    description. *)
Theorem displayName_prefers_description env description userData result :
  Mobileconfig.displayName (compose env description userData result)
  = if description =? ""
    then opt_str (assoc "displayName" (profileOpts env userData))
    else VStr description.
Proof.
  cbn. unfold JS.or. cbn. now destruct (description =? "").
Qed.

(** C5 as stated fails: the template provides a display name and the
    descriptor handed to the signer shows the description instead. *)
Lemma displayName_not_template :
  assoc "displayName" (profileOpts Sample.signing Sample.user) = Some "WildDuck Mail"
  /\ exists options,
       In (call_getSignedEmailConfig options)
         (snd (run (create_asp Sample.signing (Sample.request [("scopes", VStr "*")] true))
                 Sample.fresh))
       /\ Mobileconfig.displayName options = VStr "Thunderbird"
       /\ Mobileconfig.displayName options <> VStr "WildDuck Mail".
Proof.
  split; [reflexivity|].
  exists (compose Sample.signing "Thunderbird" Sample.user Sample.minted).
  split; [cbn; right; right; left; reflexivity|].
  split; [reflexivity | discriminate].
Qed.

(** C6, as amended. The [smtp] block of a composed descriptor takes its
    host name and port from the server setup configuration (the port falls
    back to the listener's), and its [secure] flag is the constant [true]. *)
Theorem smtp_block_secure_constant env description userData result :
  let smtp := Mobileconfig.smtp (compose env description userData result) in
  Mobileconfig.hostname smtp = Config.setup_hostname (Config.smtp (config env))
  /\ Mobileconfig.port smtp
     = JS.or (Config.setup_port (Config.smtp (config env)))
             (Config.port (Config.smtp (config env)))
  /\ Mobileconfig.secure smtp = VBool true.
Proof.
  cbn. auto.
Qed.

(** C6 as stated fails: the setup configuration says [secure: false] for
    SMTP and the composed block says [true]. *)
Lemma smtp_secure_ignores_config :
  Config.setup_secure (Config.smtp (config Sample.signing)) = VBool false
  /\ Mobileconfig.secure
       (Mobileconfig.smtp (compose Sample.signing "Thunderbird" Sample.user Sample.minted))
     = VBool true
  /\ Mobileconfig.secure
       (Mobileconfig.smtp (compose Sample.signing "Thunderbird" Sample.user Sample.minted))
     <> Config.setup_secure (Config.smtp (config Sample.signing)).
Proof.
  repeat split; discriminate.
Qed.

(** *** Listing (C7) *)

Lemma insert_by_id_perm a l : Permutation (Mongo.insert_by_id a l) (a :: l).
Proof.
  induction l as [|b r IH]; cbn; [reflexivity|].
  destruct (Asp._id a <=? Asp._id b)%N; [reflexivity|].
  rewrite IH. apply perm_swap.
Qed.

Lemma sort_by_id_perm l : Permutation (Mongo.sort_by_id l) l.
Proof.
  induction l as [|a r IH]; cbn; [reflexivity|].
  rewrite insert_by_id_perm. now constructor.
Qed.

Lemma insert_by_id_hd a b l :
  Mongo.id_le b a -> HdRel Mongo.id_le b l -> HdRel Mongo.id_le b (Mongo.insert_by_id a l).
Proof.
  intros Hba H. destruct l as [|c r]; cbn; [now constructor|].
  destruct (Asp._id a <=? Asp._id c)%N; constructor; [assumption|].
  now inversion H.
Qed.

Lemma insert_by_id_sorted a l :
  Sorted Mongo.id_le l -> Sorted Mongo.id_le (Mongo.insert_by_id a l).
Proof.
  induction 1 as [|b r S IH H]; cbn; [repeat constructor|].
  destruct (Asp._id a <=? Asp._id b)%N eqn:E.
  - apply N.leb_le in E. constructor; [now constructor | now constructor].
  - apply N.leb_gt in E. constructor; [assumption|].
    apply insert_by_id_hd; [unfold Mongo.id_le; lia | assumption].
Qed.

Lemma sort_by_id_sorted l : Sorted Mongo.id_le (Mongo.sort_by_id l).
Proof.
  induction l as [|a r IH]; cbn; [constructor | now apply insert_by_id_sorted].
Qed.

(** The run of the list handler for an existing account on a working
    database. *)
Lemma list_asps_run env params d value userData :
  GetASPs.validate params = Some value ->
  Mongo.failure d = None ->
  Mongo.users_findOne d (new_ObjectID (GetASPs.user value)) = inr (Some userData) ->
  let user := new_ObjectID (GetASPs.user value) in
  run (list_asps env params) d
  = (obj [("success", VBool true);
          ("results",
           VArr (map summary
                   (Mongo.sort_by_id
                      (filter (fun a => (Asp.user a =? user)%N) (Mongo.asps d)))))],
     d, [call_users_findOne user; call_asps_find user]).
Proof.
  intros V F U. unfold run, list_asps. rewrite V.
  unfold bind, users_findOne, asps_find, ret; cbn [database calls logged app].
  rewrite U. cbn [database calls logged app]. unfold Mongo.asps_find. now rewrite F.
Qed.

(** C7. For an existing account on a working database the list handler
    answers [success: true] with one summary for each of the account's ASPs
    and no other, in ascending order of [_id]. A summary has the keys [id],
    [description], [scopes], [lastUse] and [created] only; the [time] and
    [event] of [lastUse] are [false] for an ASP never used; the summary does
    not depend on the stored secret. With no ASPs the results are empty. *)
Theorem list_returns_account_asps env params d value userData :
  GetASPs.validate params = Some value ->
  Mongo.failure d = None ->
  Mongo.users_findOne d (new_ObjectID (GetASPs.user value)) = inr (Some userData) ->
  let user := new_ObjectID (GetASPs.user value) in
  let owned := filter (fun a => (Asp.user a =? user)%N) (Mongo.asps d) in
  exists asps,
    fst (fst (run (list_asps env params) d))
    = obj [("success", VBool true); ("results", VArr (map summary asps))]
    /\ Permutation asps owned
    /\ Sorted Mongo.id_le asps
    /\ (owned = [] -> asps = [])
    /\ forall asp,
         keys (summary asp) = ["id"; "description"; "scopes"; "lastUse"; "created"]
         /\ get "id" (summary asp) = VOid (Asp._id asp)
         /\ get "description" (summary asp) = VStr (Asp.description asp)
         /\ get "scopes" (summary asp) = VArr (map VStr (Asp.scopes asp))
         /\ get "created" (summary asp) = Asp.created asp
         /\ keys (get "lastUse" (summary asp)) = ["time"; "event"]
         /\ (truthy (Asp.used asp) = false ->
             get "time" (get "lastUse" (summary asp)) = VBool false)
         /\ (truthy (Asp.used asp) = true ->
             get "time" (get "lastUse" (summary asp)) = Asp.used asp)
         /\ (truthy (Asp.authEvent asp) = false ->
             get "event" (get "lastUse" (summary asp)) = VBool false)
         /\ (truthy (Asp.authEvent asp) = true ->
             get "event" (get "lastUse" (summary asp)) = Asp.authEvent asp)
         /\ has_key "secret" (summary asp) = false
         /\ forall secret,
              summary {| Asp._id := Asp._id asp; Asp.user := Asp.user asp;
                         Asp.description := Asp.description asp;
                         Asp.scopes := Asp.scopes asp; Asp.used := Asp.used asp;
                         Asp.authEvent := Asp.authEvent asp;
                         Asp.created := Asp.created asp; Asp.secret := secret |}
              = summary asp.
Proof.
  intros V F U user owned.
  exists (Mongo.sort_by_id owned). split; [|split; [|split; [|split]]].
  - now rewrite (list_asps_run env params d value userData V F U).
  - apply sort_by_id_perm.
  - apply sort_by_id_sorted.
  - now intros ->.
  - intros asp. cbn. unfold JS.or.
    repeat split; try reflexivity; intros T; now rewrite T.
Qed.

(** [list_returns_account_asps] on an account with three ASPs stored out
    of order. *)
Lemma list_returns_account_asps_witness :
  exists asps,
    fst (fst (run (list_asps Sample.signing Sample.listing) Sample.stocked))
    = obj [("success", VBool true); ("results", VArr (map summary asps))]
    /\ Permutation asps (Mongo.asps Sample.stocked)
    /\ Sorted Mongo.id_le asps.
Proof.
  destruct (list_returns_account_asps Sample.signing Sample.listing Sample.stocked
              {| GetASPs.user := Sample.andris |} Sample.user
              eq_refl eq_refl eq_refl) as (asps & R & P & S & _).
  exists asps. repeat split; assumption.
Defined.

(** *** A signer that fails (C1) *)

(** The run of the create handler when the Credential Service has minted
    the credential and the signer then fails. *)
Lemma sign_failure_run env params d value userData result d1 err :
  PostASP.validate (SCOPES env) (ip_address env) (split_scopes params) = Some value ->
  PostASP.generateMobileconfig value = true ->
  profile_conflict true (normalize (PostASP.scopes value)) = false ->
  Mongo.users_findOne d (new_ObjectID (PostASP.user value)) = inr (Some userData) ->
  generateASP (userHandler env) (new_ObjectID (PostASP.user value)) value d
  = (inr result, d1) ->
  getSignedEmailConfig env (compose env (PostASP.description value) userData result)
  = inl err ->
  run (create_asp env params) d
  = (failed err, d1,
     [call_users_findOne (new_ObjectID (PostASP.user value));
      call_generateASP (new_ObjectID (PostASP.user value)) value;
      call_getSignedEmailConfig
        (compose env (PostASP.description value) userData result)]).
Proof.
  intros V P C U G S. unfold run, create_asp. rewrite V, P, C.
  unfold bind, users_findOne, userHandler_generateASP,
    mobileconfig_getSignedEmailConfig, ret; cbn [database calls logged app].
  rewrite U. cbn [database calls logged app]. rewrite G.
  cbn [negb database calls logged app]. now rewrite S.
Qed.

(** C1, as amended. When the signer fails after the Credential Service has
    minted the credential, the handler answers with the signer's message
    alone (the response has no [id]); it leaves the database as the
    Credential Service left it and calls nothing after the signer, so the
    credential is not deleted: a list request for the same account, run
    next, shows every ASP of the account that the Credential Service
    left there. *)
Theorem sign_failure_keeps_credential
    env params d value userData result d1 err listing owner asp :
  PostASP.validate (SCOPES env) (ip_address env) (split_scopes params) = Some value ->
  PostASP.generateMobileconfig value = true ->
  profile_conflict true (normalize (PostASP.scopes value)) = false ->
  let user := new_ObjectID (PostASP.user value) in
  let options := compose env (PostASP.description value) userData result in
  Mongo.users_findOne d user = inr (Some userData) ->
  generateASP (userHandler env) user value d = (inr result, d1) ->
  getSignedEmailConfig env options = inl err ->
  GetASPs.validate listing = Some {| GetASPs.user := PostASP.user value |} ->
  Mongo.failure d1 = None ->
  Mongo.users_findOne d1 user = inr (Some owner) ->
  In asp (Mongo.asps d1) -> Asp.user asp = user ->
  let '(resp, d', made) := run (create_asp env params) d in
  resp = obj [("error", VStr (message err))]
  /\ has_key "id" resp = false
  /\ d' = d1
  /\ made = [call_users_findOne user; call_generateASP user value;
             call_getSignedEmailConfig options]
  /\ exists results,
       fst (fst (run (list_asps env listing) d'))
       = obj [("success", VBool true); ("results", VArr results)]
       /\ In (summary asp) results.
Proof.
  intros V P C user options U G S L F O I A.
  rewrite (sign_failure_run env params d value userData result d1 err V P C U G S).
  repeat split.
  rewrite (list_asps_run env listing d1 _ owner L F O). cbn [fst GetASPs.user].
  eexists. split; [reflexivity|].
  apply in_map.
  apply (Permutation_in _ (Permutation_sym (sort_by_id_perm _))).
  apply filter_In. split; [assumption|]. rewrite A. apply N.eqb_refl.
Qed.

(** [sign_failure_keeps_credential] with the failing signer, and the list
    request that follows. *)
Lemma sign_failure_keeps_credential_witness :
  let asp :=
    {| Asp._id := 1%N; Asp.user := new_ObjectID Sample.andris;
       Asp.description := "Thunderbird"; Asp.scopes := ["*"];
       Asp.used := VBool false; Asp.authEvent := VBool false;
       Asp.created := VDate 1511878103520; Asp.secret := "rflhmllyegblyybd" |} in
  let '(resp, d', made) :=
    run (create_asp Sample.failing (Sample.request [("scopes", VStr "*")] true))
      Sample.fresh in
  resp = obj [("error", VStr "Signing failed")]
  /\ has_key "id" resp = false
  /\ Mongo.asps d' = [asp]
  /\ exists results,
       fst (fst (run (list_asps Sample.failing Sample.listing) d'))
       = obj [("success", VBool true); ("results", VArr results)]
       /\ In (summary asp) results.
Proof.
  cbv zeta.
  pose proof
    (sign_failure_keeps_credential Sample.failing
       (Sample.request [("scopes", VStr "*")] true) Sample.fresh
       (Sample.validated (Some ["*"]) true) Sample.user Sample.minted
       (snd (generateASP (userHandler Sample.failing) (new_ObjectID Sample.andris)
               (Sample.validated (Some ["*"]) true) Sample.fresh))
       Sample.signing_failed Sample.listing Sample.user
       {| Asp._id := 1%N; Asp.user := new_ObjectID Sample.andris;
          Asp.description := "Thunderbird"; Asp.scopes := ["*"];
          Asp.used := VBool false; Asp.authEvent := VBool false;
          Asp.created := VDate 1511878103520; Asp.secret := "rflhmllyegblyybd" |}
       eq_refl eq_refl eq_refl eq_refl eq_refl eq_refl eq_refl eq_refl eq_refl
       (or_introl eq_refl) eq_refl) as H.
  destruct (run (create_asp Sample.failing _) Sample.fresh) as [[resp d'] made] eqn:R.
  destruct H as (H1 & H2 & H3 & _ & H5).
  repeat split; try assumption.
  now rewrite H3.
Defined.

(** C1 as stated fails: the signer fails once the credential exists, and
    the response carries no [id]. *)
Lemma sign_failure_omits_id :
  let '(resp, d', made) :=
    run (create_asp Sample.failing (Sample.request [("scopes", VStr "*")] true))
      Sample.fresh in
  made = [call_users_findOne (new_ObjectID Sample.andris);
          call_generateASP (new_ObjectID Sample.andris)
            (Sample.validated (Some ["*"]) true);
          call_getSignedEmailConfig
            (compose Sample.failing "Thunderbird" Sample.user Sample.minted)]
  /\ map Asp._id (Mongo.asps d') = [id Sample.minted]
  /\ resp = obj [("error", VStr "Signing failed")]
  /\ get "id" resp = VUndef.
Proof.
  repeat split.
Qed.

(** *** Scopes: default and wildcard (C3, C9) *)

Lemma param_set k v p : Joi.param k (set k v p) = v.
Proof.
  unfold Joi.param.
  induction p as [|[k' v'] r IH]; cbn.
  - now rewrite String.eqb_refl.
  - destruct (k' =? k) eqn:E; cbn.
    + now rewrite String.eqb_refl.
    + now rewrite E.
Qed.

(** After line 235 the [scopes] of the request is not a string. *)
Lemma split_scopes_not_string p s : Joi.param "scopes" (split_scopes p) <> VStr s.
Proof.
  unfold split_scopes.
  destruct (Joi.param "scopes" p) eqn:E; try (rewrite E; discriminate).
  rewrite param_set. discriminate.
Qed.

(** What validation makes of the [scopes] property. *)
Lemma validated_scopes SCOPES ip_address p value :
  PostASP.validate SCOPES ip_address p = Some value ->
  Joi.opt_scopes SCOPES (Joi.param "scopes" p) = Some (PostASP.scopes value).
Proof.
  unfold PostASP.validate. intros V.
  destruct (Joi.only_keys _ _); [|discriminate].
  destruct (Joi.hex24 _); [|discriminate].
  destruct (Joi.trimmed_max255 _); [|discriminate].
  destruct (Joi.opt_scopes _ _); [|discriminate].
  destruct (Joi.boolish _); [|discriminate].
  destruct (Joi.opt_max255 _); [|discriminate].
  destruct (Joi.opt_ip _ _); [|discriminate].
  now injection V as <-.
Qed.

(** A request that passes validation and the profile test, for an account
    that exists, reaches the Credential Service with the validated request
    itself. *)
Lemma credential_service_reached env params d value userData :
  PostASP.validate (SCOPES env) (ip_address env) (split_scopes params) = Some value ->
  profile_conflict (PostASP.generateMobileconfig value)
    (normalize (PostASP.scopes value)) = false ->
  Mongo.users_findOne d (new_ObjectID (PostASP.user value)) = inr (Some userData) ->
  exists rest,
    snd (run (create_asp env params) d)
    = call_users_findOne (new_ObjectID (PostASP.user value))
        :: call_generateASP (new_ObjectID (PostASP.user value)) value :: rest.
Proof.
  intros V C U.
  pose proof (create_asp_outcome env params d) as O.
  destruct (run (create_asp env params) d) as [[resp d'] made]. cbn [snd].
  destruct O;
    repeat match goal with
           | x := _ |- _ => subst x
           | H : PostASP.validate _ _ _ = _ |- _ => rewrite V in H
           | H : None = Some _ |- _ => discriminate H
           | H : Some _ = None |- _ => discriminate H
           | H : Some _ = Some _ |- _ => injection H as <-
           end;
    try congruence; eauto.
Qed.

(** C3, as amended. When [scopes] is absent from a create request, the list
    the handler normalises and tests is exactly [["*"]], while the validated
    request it hands to the Credential Service has no scopes. A
    comma-delimited string that leaves no token becomes the empty array,
    which validation refuses: the answer is [InputValidationError] and the
    Credential Service is not called. *)
Theorem scopes_default env params d :
  (forall value userData,
      Joi.param "scopes" params = VUndef ->
      PostASP.validate (SCOPES env) (ip_address env) (split_scopes params) = Some value ->
      Mongo.users_findOne d (new_ObjectID (PostASP.user value)) = inr (Some userData) ->
      normalize (PostASP.scopes value) = ["*"]
      /\ PostASP.scopes value = None
      /\ exists rest,
           snd (run (create_asp env params) d)
           = call_users_findOne (new_ObjectID (PostASP.user value))
               :: call_generateASP (new_ObjectID (PostASP.user value)) value :: rest)
  /\ (forall s,
      Joi.param "scopes" params = VStr s ->
      tokens s = [] ->
      run (create_asp env params) d
      = (obj [("error", VStr (joi_message env (split_scopes params)));
              ("code", VStr "InputValidationError")], d, [])).
Proof.
  split.
  - intros value userData A V U.
    assert (N : PostASP.scopes value = None).
    { pose proof (validated_scopes _ _ _ _ V) as S.
      unfold split_scopes in S. rewrite A in S. rewrite A in S. cbn in S.
      congruence. }
    rewrite N. repeat split.
    apply credential_service_reached with userData; [assumption| |assumption].
    rewrite N. unfold profile_conflict. cbn. now rewrite andb_false_r.
  - intros s A T.
    assert (V : PostASP.validate (SCOPES env) (ip_address env) (split_scopes params) = None).
    { destruct (PostASP.validate _ _ _) as [value|] eqn:V; [|reflexivity].
      pose proof (validated_scopes _ _ _ _ V) as S.
      unfold split_scopes in S. rewrite A, T, param_set in S. discriminate S. }
    unfold run, create_asp. now rewrite V.
Qed.

(** [scopes_default] on a request without scopes and on one with blank
    scopes. *)
Lemma scopes_default_witness :
  (normalize (PostASP.scopes (Sample.validated None false)) = ["*"]
   /\ PostASP.scopes (Sample.validated None false) = None
   /\ exists rest,
        snd (run (create_asp Sample.signing (Sample.request [] false)) Sample.fresh)
        = call_users_findOne (new_ObjectID Sample.andris)
            :: call_generateASP (new_ObjectID Sample.andris) (Sample.validated None false)
            :: rest)
  /\ run (create_asp Sample.signing (Sample.request [("scopes", VStr " , ")] false))
       Sample.fresh
     = (obj [("error", VStr "ValidationError"); ("code", VStr "InputValidationError")],
        Sample.fresh, []).
Proof.
  split.
  - exact (proj1 (scopes_default Sample.signing (Sample.request [] false) Sample.fresh)
             (Sample.validated None false) Sample.user eq_refl eq_refl eq_refl).
  - exact (proj2 (scopes_default Sample.signing
                    (Sample.request [("scopes", VStr " , ")] false) Sample.fresh)
             " , " eq_refl eq_refl).
Defined.

(** C3 as stated fails: with no [scopes] in the request, the Credential
    Service is handed a request without scopes, not the wildcard. *)
Lemma absent_scopes_not_passed :
  exists data,
    snd (run (create_asp Sample.signing (Sample.request [] false)) Sample.fresh)
    = [call_users_findOne (new_ObjectID Sample.andris);
       call_generateASP (new_ObjectID Sample.andris) data]
    /\ PostASP.scopes data = None
    /\ PostASP.scopes data <> Some ["*"].
Proof.
  exists (Sample.validated None false). repeat split. discriminate.
Qed.



(** *** Deleting (C8) *)

(** C8, as amended. A delete request is answered in one of three ways:
    [{success: true}]; the validator's message with the code
    [InputValidationError]; or, when the Credential Service reports an
    error (as it does when the owner has no such ASP), that error's message
    alone, without any code. *)
Theorem delete_responses env params d resp d' made :
  run (delete_asp env params) d = (resp, d', made) ->
  (resp = obj [("success", VBool true)]
   /\ exists value,
        DeleteASP.validate (ip_address env) params = Some value
        /\ deleteASP (userHandler env) (new_ObjectID (DeleteASP.user value))
             (new_ObjectID (DeleteASP.asp value)) value d = (None, d'))
  \/ (resp = obj [("error", VStr (joi_message env params));
                  ("code", VStr "InputValidationError")]
      /\ DeleteASP.validate (ip_address env) params = None
      /\ d' = d /\ made = [])
  \/ (exists value err,
        DeleteASP.validate (ip_address env) params = Some value
        /\ deleteASP (userHandler env) (new_ObjectID (DeleteASP.user value))
             (new_ObjectID (DeleteASP.asp value)) value d = (Some err, d')
        /\ resp = obj [("error", VStr (message err))]
        /\ has_key "code" resp = false).
Proof.
  intros R.
  pose proof (delete_asp_outcome env params d) as O. rewrite R in O.
  destruct O as [V | v err d1 user asp V D | v d1 user asp V D].
  - right. left. auto.
  - right. right. exists v, err. auto.
  - left. split; [reflexivity|]. exists v. auto.
Qed.

(** [delete_responses] on the removal of an ASP the account does not have. *)
Lemma delete_responses_witness :
  exists value err,
    DeleteASP.validate (ip_address Sample.signing) Sample.removal = Some value
    /\ deleteASP (userHandler Sample.signing) (new_ObjectID (DeleteASP.user value))
         (new_ObjectID (DeleteASP.asp value)) value Sample.stocked
       = (Some err, Sample.stocked)
    /\ code err = VStr "NotFound"
    /\ fst (fst (run (delete_asp Sample.signing Sample.removal) Sample.stocked))
       = obj [("error", VStr (message err))].
Proof.
  destruct (delete_responses Sample.signing Sample.removal Sample.stocked _ _ _ eq_refl)
    as [[E _] | [[E _] | (value & err & V & D & E & _)]];
    [discriminate E | discriminate E |].
  exists value, err. repeat split; [assumption | assumption | | assumption].
  cbn in V. injection V as <-. cbn in D. now injection D as <-.
Defined.

(** C8 as stated fails: the owner has no such ASP, the Credential Service
    reports [NotFound], and the response is neither [{success: true}] nor an
    object with a code. *)
Lemma delete_not_found_has_no_code :
  let '(resp, d', made) :=
    run (delete_asp Sample.signing Sample.removal) Sample.stocked in
  (exists value err,
     made = [call_deleteASP (new_ObjectID Sample.andris)
               (new_ObjectID "5a1d6dd776e56b6d97e5dd48") value]
     /\ deleteASP (userHandler Sample.signing) (new_ObjectID Sample.andris)
          (new_ObjectID "5a1d6dd776e56b6d97e5dd48") value Sample.stocked
        = (Some err, Sample.stocked)
     /\ code err = VStr "NotFound")
  /\ resp = obj [("error", VStr "Application Specific Password was not found")]
  /\ resp <> obj [("success", VBool true)]
  /\ get "code" resp = VUndef.
Proof.
  split; [|repeat split; discriminate].
  eexists _, _. repeat split.
Qed.

(** *** Trimming and splitting *)

Lemma trimStart_head s c r : trimStart s = String c r -> is_space c = false.
Proof.
  induction s as [|a t IH]; cbn; [discriminate|].
  destruct (is_space a) eqn:E; [assumption|].
  intros H. injection H as <- _. assumption.
Qed.

Lemma trimEnd_cons c r :
  is_space c = false -> trimEnd (String c r) = String c (trimEnd r).
Proof.
  intros E. cbn. destruct (trimEnd r); [now rewrite E | reflexivity].
Qed.

Lemma trimEnd_step c r :
  trimEnd r <> "" -> trimEnd (String c r) = String c (trimEnd r).
Proof.
  intros N. cbn. destruct (trimEnd r); [contradiction | reflexivity].
Qed.

Lemma trimEnd_idempotent s : trimEnd (trimEnd s) = trimEnd s.
Proof.
  induction s as [|c r IH]; [reflexivity|].
  destruct (trimEnd r) as [|a t] eqn:E.
  - cbn. rewrite E. destruct (is_space c) eqn:S; [reflexivity|]. cbn. now rewrite S.
  - assert (N : trimEnd r <> "") by (rewrite E; discriminate).
    rewrite (trimEnd_step c r N), E.
    rewrite trimEnd_step; rewrite IH; [reflexivity | discriminate].
Qed.

Lemma trimEnd_last s r c : trimEnd s = r ++ String c EmptyString -> is_space c = false.
Proof.
  revert r. induction s as [|a t IH]; intros r.
  - cbn. destruct r; discriminate.
  - cbn. destruct (trimEnd t) as [|b u] eqn:E.
    + destruct (is_space a) eqn:S; [destruct r; discriminate|].
      destruct r as [|x r]; cbn; intros H.
      * now injection H as <-.
      * injection H as _ H. destruct r; discriminate.
    + destruct r as [|x r]; cbn; intros H; [discriminate|].
      injection H as _ H. now apply (IH r).
Qed.

Lemma trimStart_idempotent s : trimStart (trimStart s) = trimStart s.
Proof.
  induction s as [|c r IH]; [reflexivity|]. cbn.
  destruct (is_space c) eqn:E; [assumption|]. cbn. now rewrite E.
Qed.

Lemma trimStart_trim s : trimStart (trim s) = trim s.
Proof.
  unfold trim. destruct (trimStart s) as [|c r] eqn:E; [reflexivity|].
  pose proof (trimStart_head _ _ _ E) as S.
  rewrite (trimEnd_cons _ _ S). cbn. now rewrite S.
Qed.

Lemma trim_idempotent s : trim (trim s) = trim s.
Proof.
  unfold trim at 1. rewrite trimStart_trim. unfold trim. apply trimEnd_idempotent.
Qed.

Lemma trim_head s c r : trim s = String c r -> is_space c = false.
Proof.
  intros H. apply (trimStart_head (trim s) c r). now rewrite trimStart_trim.
Qed.

Lemma trim_last s r c : trim s = r ++ String c EmptyString -> is_space c = false.
Proof. apply trimEnd_last. Qed.

Lemma in_trimStart c s :
  In c (list_ascii_of_string (trimStart s)) -> In c (list_ascii_of_string s).
Proof.
  induction s as [|a t IH]; cbn; [tauto|].
  destruct (is_space a); cbn; tauto.
Qed.

Lemma in_trimEnd c s :
  In c (list_ascii_of_string (trimEnd s)) -> In c (list_ascii_of_string s).
Proof.
  induction s as [|a t IH]; cbn; [tauto|].
  destruct (trimEnd t) as [|b u].
  - destruct (is_space a); cbn; tauto.
  - cbn in *. tauto.
Qed.

Lemma in_trim c s : In c (list_ascii_of_string (trim s)) -> In c (list_ascii_of_string s).
Proof. intros H. now apply in_trimStart, in_trimEnd. Qed.

Lemma split_comma_nonempty s : split_comma s <> [].
Proof.
  destruct s as [|c r]; cbn; [discriminate|].
  destruct (c =? ",")%char; [discriminate|].
  destruct (split_comma r); discriminate.
Qed.

Lemma split_comma_pieces s piece :
  In piece (split_comma s) -> ~ In ","%char (list_ascii_of_string piece).
Proof.
  revert piece. induction s as [|c r IH]; intros piece; cbn.
  - intros [<-|[]]. cbn. tauto.
  - destruct (c =? ",")%char eqn:E.
    + intros [<-|H]; [cbn; tauto | now apply IH].
    + destruct (split_comma r) as [|h t].
      * intros [<-|[]]. cbn. intros [->|[]]. now rewrite Ascii.eqb_refl in E.
      * intros [<-|H].
        -- cbn. intros [->|H]; [now rewrite Ascii.eqb_refl in E|].
           now apply (IH h); [left|].
        -- apply IH. now right.
Qed.

(** X1. Splitting at the commas loses nothing: the pieces, joined with
    commas again, are the string that was split, and no piece holds a
    comma. *)
Theorem split_comma_join s :
  String.concat "," (split_comma s) = s
  /\ forall piece, In piece (split_comma s) -> ~ In ","%char (list_ascii_of_string piece).
Proof.
  split; [|apply split_comma_pieces].
  induction s as [|c r IH]; [reflexivity|]. cbn [split_comma].
  destruct (c =? ",")%char eqn:E.
  - apply Ascii.eqb_eq in E. subst c.
    pose proof (split_comma_nonempty r) as N.
    destruct (split_comma r) as [|h t]; [contradiction|].
    rewrite <- IH. reflexivity.
  - pose proof (split_comma_nonempty r) as N.
    destruct (split_comma r) as [|h t]; [contradiction|].
    rewrite <- IH. destruct t; reflexivity.
Qed.

(** [split_comma_join] on a list with an empty piece. *)
Lemma split_comma_join_witness :
  String.concat "," (split_comma "imap,,smtp") = "imap,,smtp"
  /\ ~ In ","%char (list_ascii_of_string "smtp").
Proof.
  destruct (split_comma_join "imap,,smtp") as [J P].
  split; [exact J | apply P; cbn; tauto].
Defined.

(** X2. Every scope token cut from a comma-delimited string is non-empty,
    starts and ends with a character that is not white space, and holds no
    comma. *)
Theorem tokens_clean s token :
  In token (tokens s) ->
  token <> ""
  /\ (forall c r, token = String c r -> is_space c = false)
  /\ (forall r c, token = r ++ String c EmptyString -> is_space c = false)
  /\ ~ In ","%char (list_ascii_of_string token).
Proof.
  unfold tokens. rewrite filter_In, in_map_iff.
  intros [(piece & <- & P) N].
  split; [|split; [|split]].
  - intros E. rewrite E in N. discriminate.
  - apply trim_head.
  - apply trim_last.
  - intros C. apply in_trim in C. now apply (split_comma_pieces s piece).
Qed.

(** [tokens_clean] on the second token of a padded list. *)
Lemma tokens_clean_witness :
  tokens "imap, smtp ,," = ["imap"; "smtp"]
  /\ "smtp" <> ""
  /\ (forall c r, "smtp" = String c r -> is_space c = false)
  /\ (forall r c, "smtp" = r ++ String c EmptyString -> is_space c = false)
  /\ ~ In ","%char (list_ascii_of_string "smtp").
Proof.
  split; [reflexivity|].
  apply (tokens_clean "imap, smtp ,," "smtp").
  cbn. right. left. reflexivity.
Defined.

(** *** Identifiers *)

Lemma lower_char_idempotent c : lower_char (lower_char c) = lower_char c.
Proof. destruct c as [[] [] [] [] [] [] [] []]; reflexivity. Qed.

Lemma toLowerCase_idempotent s : toLowerCase (toLowerCase s) = toLowerCase s.
Proof.
  induction s as [|c r IH]; [reflexivity|]. cbn.
  now rewrite lower_char_idempotent, IH.
Qed.

Lemma toLowerCase_empty s : (toLowerCase s =? "") = (s =? "").
Proof. now destruct s. Qed.

Lemma lower_hex_digit c d :
  hex_digit (lower_char c) = Some d -> In (lower_char c) lower_hex.
Proof.
  destruct c as [[] [] [] [] [] [] [] []]; vm_compute; intros H;
    try discriminate H; clear H;
    repeat (first [left; reflexivity | right]).
Qed.

Lemma is_hex_lower s c :
  Joi.is_hex (toLowerCase s) = true ->
  In c (list_ascii_of_string (toLowerCase s)) -> In c lower_hex.
Proof.
  unfold Joi.is_hex. rewrite andb_true_iff, forallb_forall. intros [_ H] I.
  specialize (H c I).
  induction s as [|a r IH]; cbn in I; [contradiction|].
  destruct I as [<-|I].
  - destruct (hex_digit (lower_char a)) eqn:E; [|discriminate].
    now apply lower_hex_digit with n.
  - now apply IH.
Qed.

Lemma hex_digit_bound c d : hex_digit c = Some d -> (d < 16)%N.
Proof.
  destruct c as [[] [] [] [] [] [] [] []]; vm_compute; intros H;
    try discriminate H; injection H as <-; reflexivity.
Qed.

Lemma digit_bound c : (digit c < 16)%N.
Proof.
  unfold digit. destruct (hex_digit c) eqn:E; [now apply hex_digit_bound with c | lia].
Qed.

Lemma hex_value_shift acc s :
  hex_value acc s = (acc * 16 ^ N.of_nat (length s) + hex_value 0 s)%N.
Proof.
  revert acc. induction s as [|c r IH]; intros acc.
  - cbn. lia.
  - cbn [hex_value length]. rewrite IH. rewrite (IH (16 * 0 + _)%N).
    rewrite Nat2N.inj_succ, N.pow_succ_r'. lia.
Qed.

Lemma hex_value_bound s : (hex_value 0 s < 16 ^ N.of_nat (length s))%N.
Proof.
  induction s as [|c r IH]; [cbn; lia|].
  cbn [hex_value length]. rewrite hex_value_shift.
  rewrite Nat2N.inj_succ, N.pow_succ_r'.
  fold (digit c). pose proof (digit_bound c). nia.
Qed.

Lemma digit_lower_hex_inj a b :
  In a lower_hex -> In b lower_hex -> digit a = digit b -> a = b.
Proof.
  unfold lower_hex. cbn [list_ascii_of_string In].
  intros A B.
  repeat (destruct A as [<-|A]; [|]); try contradiction;
    repeat (destruct B as [<-|B]; [|]); try contradiction;
    vm_compute; intros H; first [reflexivity | discriminate H].
Qed.

Lemma hex_value_inj s1 s2 :
  length s1 = length s2 ->
  (forall c, In c (list_ascii_of_string s1) -> In c lower_hex) ->
  (forall c, In c (list_ascii_of_string s2) -> In c lower_hex) ->
  hex_value 0 s1 = hex_value 0 s2 -> s1 = s2.
Proof.
  revert s2. induction s1 as [|a r1 IH]; intros [|b r2]; try discriminate;
    [reflexivity|].
  cbn [length list_ascii_of_string hex_value]. intros L H1 H2.
  injection L as L.
  rewrite (hex_value_shift _ r1), (hex_value_shift _ r2), L.
  fold (digit a) (digit b). intros E.
  pose proof (hex_value_bound r1) as B1. rewrite L in B1.
  pose proof (hex_value_bound r2) as B2.
  destruct (N.div_mod_unique (16 ^ N.of_nat (length r2)) (digit a) (digit b)
              (hex_value 0 r1) (hex_value 0 r2) B1 B2) as [D R]; [lia|].
  f_equal.
  - apply digit_lower_hex_inj; [apply H1; now left | apply H2; now left | assumption].
  - apply IH; auto; intros c I; [apply H1 | apply H2]; now right.
Qed.

Lemma hex24_inv v s :
  Joi.hex24 v = Some s ->
  exists x, v = VStr x /\ s = toLowerCase x /\ x <> ""
            /\ Joi.is_hex s = true /\ length s = 24%nat.
Proof.
  unfold Joi.hex24. destruct v as [| | | |x| | | |]; try discriminate.
  destruct (negb (x =? "")) eqn:N; [|discriminate].
  destruct (Joi.is_hex (toLowerCase x)) eqn:H; [|discriminate].
  destruct (length (toLowerCase x) =? 24)%nat eqn:L; [|discriminate].
  cbn. intros E. injection E as <-. exists x.
  repeat split; try assumption.
  - apply negb_true_iff, String.eqb_neq in N. assumption.
  - now apply Nat.eqb_eq.
Qed.

(** X3. An identifier that passes validation is in canonical form: 24
    characters, each a lower-case hex digit, and validating it again returns
    it unchanged; the same identifier written in other letter case validates
    to the same value. *)
Theorem hex24_canonical v s :
  Joi.hex24 v = Some s ->
  length s = 24%nat
  /\ (forall c, In c (list_ascii_of_string s) -> In c lower_hex)
  /\ Joi.hex24 (VStr s) = Some s
  /\ forall x, toLowerCase x = s -> Joi.hex24 (VStr x) = Some s.
Proof.
  intros H. destruct (hex24_inv v s H) as (x & -> & -> & N & X & L).
  assert (R : forall y, toLowerCase y = toLowerCase x ->
                        Joi.hex24 (VStr y) = Some (toLowerCase x)).
  { intros y E. unfold Joi.hex24. rewrite E, X, L.
    rewrite <- toLowerCase_empty, E, toLowerCase_empty.
    apply String.eqb_neq in N. now rewrite N. }
  repeat split.
  - assumption.
  - intros c. now apply is_hex_lower.
  - apply R, toLowerCase_idempotent.
  - assumption.
Qed.

(** [hex24_canonical] on an identifier written in capitals. *)
Lemma hex24_canonical_witness :
  Joi.hex24 (VStr "59FC66A03E54454869460E45") = Some Sample.andris
  /\ length Sample.andris = 24%nat
  /\ Joi.hex24 (VStr Sample.andris) = Some Sample.andris.
Proof.
  destruct (hex24_canonical (VStr "59FC66A03E54454869460E45") Sample.andris eq_refl)
    as (L & _ & R & _).
  repeat split; assumption.
Defined.

(** X4. Validated identifiers that differ denote different ObjectIDs, and
    every one of them fits the twelve bytes of an ObjectID. *)
Theorem validated_ids_distinct v1 v2 s1 s2 :
  Joi.hex24 v1 = Some s1 ->
  Joi.hex24 v2 = Some s2 ->
  (new_ObjectID s1 < 2 ^ 96)%N
  /\ (new_ObjectID s1 = new_ObjectID s2 -> s1 = s2).
Proof.
  intros H1 H2.
  destruct (hex24_inv v1 s1 H1) as (x1 & -> & -> & _ & X1 & L1).
  destruct (hex24_inv v2 s2 H2) as (x2 & -> & -> & _ & X2 & L2).
  split.
  - unfold new_ObjectID.
    pose proof (hex_value_bound (toLowerCase x1)) as B. rewrite L1 in B.
    change (16 ^ N.of_nat 24)%N with (2 ^ 96)%N in B. exact B.
  - unfold new_ObjectID. apply hex_value_inj.
    + congruence.
    + intros c. now apply is_hex_lower.
    + intros c. now apply is_hex_lower.
Qed.

(** [validated_ids_distinct] on the sample account and the sample ASP. *)
Lemma validated_ids_distinct_witness :
  (new_ObjectID Sample.andris < 2 ^ 96)%N
  /\ (new_ObjectID Sample.andris = new_ObjectID "5a1d6dd776e56b6d97e5dd48" ->
      Sample.andris = "5a1d6dd776e56b6d97e5dd48").
Proof.
  exact (validated_ids_distinct (VStr Sample.andris) (VStr "5A1D6DD776E56B6D97E5DD48")
           Sample.andris "5a1d6dd776e56b6d97e5dd48" eq_refl eq_refl).
Defined.

(** *** What validation guarantees *)

Lemma validate_create_inv SCOPES ip_address p value :
  PostASP.validate SCOPES ip_address p = Some value ->
  Joi.only_keys PostASP.known p = true
  /\ Joi.hex24 (Joi.param "user" p) = Some (PostASP.user value)
  /\ Joi.trimmed_max255 (Joi.param "description" p) = Some (PostASP.description value)
  /\ Joi.opt_scopes SCOPES (Joi.param "scopes" p) = Some (PostASP.scopes value)
  /\ Joi.boolish (Joi.param "generateMobileconfig" p)
     = Some (PostASP.generateMobileconfig value)
  /\ Joi.opt_max255 (Joi.param "sess" p) = Some (PostASP.sess value)
  /\ Joi.opt_ip ip_address (Joi.param "ip" p) = Some (PostASP.ip value).
Proof.
  unfold PostASP.validate. intros V.
  destruct (Joi.only_keys _ _); [|discriminate].
  destruct (Joi.hex24 _); [|discriminate].
  destruct (Joi.trimmed_max255 _); [|discriminate].
  destruct (Joi.opt_scopes _ _); [|discriminate].
  destruct (Joi.boolish _); [|discriminate].
  destruct (Joi.opt_max255 _); [|discriminate].
  destruct (Joi.opt_ip _ _); [|discriminate].
  injection V as <-. cbn. repeat split.
Qed.

Lemma trimmed_max255_inv v d :
  Joi.trimmed_max255 v = Some d ->
  exists x, v = VStr x /\ d = trim x /\ d <> "" /\ (length d <= 255)%nat.
Proof.
  unfold Joi.trimmed_max255. destruct v as [| | | |x| | | |]; try discriminate.
  destruct (negb (x =? "")), (trim x =? "") eqn:T, (length (trim x) <=? 255)%nat eqn:L;
    cbn [negb andb]; try discriminate.
  intros E. injection E as <-. exists x. repeat split.
  - now apply String.eqb_neq.
  - now apply Nat.leb_le.
Qed.

Lemma valid_items_inv allowed items l :
  Joi.valid_items allowed items = Some l ->
  items = map VStr l /\ forall x, In x l -> In x allowed.
Proof.
  revert l. induction items as [|v r IH]; intros l; cbn.
  - intros E. injection E as <-. split; [reflexivity | contradiction].
  - destruct v as [| | | |x| | | |]; try discriminate.
    destruct (includes allowed x) eqn:A; [|discriminate].
    destruct (Joi.valid_items allowed r) as [l'|]; [|discriminate].
    intros E. injection E as <-.
    destruct (IH l' eq_refl) as [-> H]. split; [reflexivity|].
    intros y [<-|I]; [now apply includes_In | now apply H].
Qed.

Lemma unique_NoDup l : Joi.unique l = true -> NoDup l.
Proof.
  induction l as [|x r IH]; cbn; [constructor|].
  rewrite andb_true_iff, negb_true_iff, includes_false.
  intros [N U]. constructor; auto.
Qed.

Lemma opt_scopes_inv SCOPES v l :
  Joi.opt_scopes SCOPES v = Some (Some l) ->
  v = VArr (map VStr l) /\ l <> [] /\ NoDup l
  /\ forall x, In x l -> x = "*" \/ In x SCOPES.
Proof.
  unfold Joi.opt_scopes. destruct v as [| | | | | | |items|]; try discriminate.
  destruct (Joi.valid_items _ items) as [[|x r]|] eqn:I; try discriminate.
  destruct (Joi.unique (x :: r)) eqn:U; [|discriminate].
  intros E. injection E as <-.
  destruct (valid_items_inv _ _ _ I) as [-> A].
  repeat split; [discriminate | now apply unique_NoDup |].
  intros y Y. apply A, in_app_or in Y. destruct Y as [Y|[<-|[]]]; auto.
Qed.

(** X5. A create request that passes validation has a trimmed, non-empty
    description of at most 255 characters; its scopes, when given, are a
    non-empty list without repetition of the wildcard and members of the
    scope vocabulary, in the order requested; [generateMobileconfig] is
    false when the request does not mention it; the session tag is
    non-empty and at most 255 characters; and the request has no property
    outside the schema. *)
Theorem validated_create_wellformed SCOPES ip_address p value :
  PostASP.validate SCOPES ip_address p = Some value ->
  (exists x, Joi.param "description" p = VStr x
             /\ PostASP.description value = trim x)
  /\ PostASP.description value <> ""
  /\ (length (PostASP.description value) <= 255)%nat
  /\ (forall l, PostASP.scopes value = Some l ->
        Joi.param "scopes" p = VArr (map VStr l)
        /\ l <> [] /\ NoDup l
        /\ forall x, In x l -> x = "*" \/ In x SCOPES)
  /\ (PostASP.scopes value = None -> Joi.param "scopes" p = VUndef)
  /\ (Joi.param "generateMobileconfig" p = VUndef ->
        PostASP.generateMobileconfig value = false)
  /\ (forall s, PostASP.sess value = Some s -> s <> "" /\ (length s <= 255)%nat)
  /\ (forall i, PostASP.ip value = Some i -> ip_address i = true)
  /\ forall k, In k (map fst p) -> In k PostASP.known.
Proof.
  intros V.
  destruct (validate_create_inv _ _ _ _ V) as (K & _ & D & S & G & E & I).
  destruct (trimmed_max255_inv _ _ D) as (x & X & T & N & L).
  repeat apply conj.
  - now exists x.
  - assumption.
  - assumption.
  - intros l A. rewrite A in S. now apply opt_scopes_inv in S.
  - intros A. rewrite A in S. unfold Joi.opt_scopes in S.
    destruct (Joi.param "scopes" p) as [| | | | | | |items|]; try discriminate;
      [reflexivity|].
    destruct (Joi.valid_items _ items) as [[|y r]|]; try discriminate.
    destruct (Joi.unique _); discriminate.
  - intros A. rewrite A in G. cbn in G. congruence.
  - intros s A. rewrite A in E. unfold Joi.opt_max255 in E.
    destruct (Joi.param "sess" p) as [| | | |y| | | |]; try discriminate.
    destruct (negb (y =? "")) eqn:Y; [|discriminate].
    destruct (length y <=? 255)%nat eqn:Z; [|discriminate].
    cbn in E. injection E as ->. split.
    + now apply negb_true_iff, String.eqb_neq in Y.
    + now apply Nat.leb_le.
  - intros i A. rewrite A in I. unfold Joi.opt_ip in I.
    destruct (Joi.param "ip" p) as [| | | |y| | | |]; try discriminate.
    destruct (negb (y =? "")); [|discriminate].
    destruct (ip_address y) eqn:Y; [|discriminate].
    cbn in I. now injection I as ->.
  - intros k A. unfold Joi.only_keys in K. rewrite forallb_forall in K.
    now apply includes_In, K.
Qed.

(** [validated_create_wellformed] on a request with padded fields. *)
Lemma validated_create_wellformed_witness :
  let p := [("user", VStr Sample.andris); ("description", VStr "  Thunderbird ");
            ("scopes", VArr [VStr "smtp"; VStr "imap"]); ("sess", VStr "web")] in
  exists value,
    PostASP.validate ["imap"; "pop3"; "smtp"] (fun _ => false) p = Some value
    /\ PostASP.description value = "Thunderbird"
    /\ PostASP.generateMobileconfig value = false
    /\ forall l, PostASP.scopes value = Some l ->
         Joi.param "scopes" p = VArr (map VStr l)
         /\ l <> [] /\ NoDup l
         /\ forall x, In x l -> x = "*" \/ In x ["imap"; "pop3"; "smtp"].
Proof.
  cbv zeta.
  exists {| PostASP.user := Sample.andris; PostASP.description := "Thunderbird";
            PostASP.scopes := Some ["smtp"; "imap"];
            PostASP.generateMobileconfig := false;
            PostASP.sess := Some "web"; PostASP.ip := None |}.
  split; [reflexivity|]. split; [reflexivity|]. split; [reflexivity|].
  refine (proj1 (proj2 (proj2 (proj2
            (validated_create_wellformed ["imap"; "pop3"; "smtp"] (fun _ => false)
               [("user", VStr Sample.andris); ("description", VStr "  Thunderbird ");
                ("scopes", VArr [VStr "smtp"; VStr "imap"]); ("sess", VStr "web")]
               _ eq_refl))))).
Defined.

(** *** Requests with unknown or comma-delimited properties *)

Lemma keys_set k v p x :
  assoc k p = Some x -> map fst (set k v p) = map fst p.
Proof.
  induction p as [|[k' v'] r IH]; cbn; [discriminate|].
  destruct (k' =? k) eqn:E.
  - intros _. cbn. apply String.eqb_eq in E. now subst.
  - intros A. cbn. now rewrite IH.
Qed.

Lemma keys_split_scopes p : map fst (split_scopes p) = map fst p.
Proof.
  unfold split_scopes, Joi.param.
  destruct (assoc "scopes" p) as [v|] eqn:A; [|reflexivity].
  destruct v; try reflexivity. now apply keys_set with (VStr s).
Qed.

Lemma only_keys_unknown known p k :
  In k (map fst p) -> ~ In k known -> Joi.only_keys known p = false.
Proof.
  intros I N. unfold Joi.only_keys.
  destruct (forallb _ _) eqn:F; [|reflexivity].
  rewrite forallb_forall in F. apply F, includes_In in I. contradiction.
Qed.

(** X6. A request with a property the schema does not name is refused by
    each of the three handlers: the answer is [InputValidationError], no
    collaborator is called and the database is left as it was. *)
Theorem unknown_key_rejected env params d k :
  In k (map fst params) ->
  (~ In k GetASPs.known ->
   run (list_asps env params) d
   = (obj [("error", VStr (joi_message env params));
           ("code", VStr "InputValidationError")], d, []))
  /\ (~ In k PostASP.known ->
      run (create_asp env params) d
      = (obj [("error", VStr (joi_message env (split_scopes params)));
              ("code", VStr "InputValidationError")], d, []))
  /\ (~ In k DeleteASP.known ->
      run (delete_asp env params) d
      = (obj [("error", VStr (joi_message env params));
              ("code", VStr "InputValidationError")], d, [])).
Proof.
  intros I. repeat apply conj; intros N.
  - unfold run, list_asps, GetASPs.validate.
    now rewrite (only_keys_unknown _ _ k I N).
  - unfold run, create_asp, PostASP.validate.
    rewrite (only_keys_unknown _ (split_scopes params) k); [reflexivity| |assumption].
    now rewrite keys_split_scopes.
  - unfold run, delete_asp, DeleteASP.validate.
    now rewrite (only_keys_unknown _ _ k I N).
Qed.

(** [unknown_key_rejected] on a create request that brings its own
    [password]. *)
Lemma unknown_key_rejected_witness :
  run (create_asp Sample.signing
         (("password", VStr "secret") :: Sample.request [] false)) Sample.fresh
  = (obj [("error", VStr "ValidationError"); ("code", VStr "InputValidationError")],
     Sample.fresh, []).
Proof.
  refine (proj1 (proj2 (unknown_key_rejected Sample.signing
            (("password", VStr "secret") :: Sample.request [] false) Sample.fresh
            "password" (or_introl eq_refl))) _).
  cbn. intros H.
  repeat (destruct H as [H|H]; [discriminate H|]). exact H.
Defined.

(** X7. A create request whose [scopes] is a comma-delimited string is
    handled exactly as the request that carries the array of its tokens in
    its place: same response, same database, same calls. *)
Theorem comma_scopes_as_array env params d s :
  Joi.param "scopes" params = VStr s ->
  run (create_asp env params) d
  = run (create_asp env (set "scopes" (VArr (map VStr (tokens s))) params)) d.
Proof.
  intros H. unfold create_asp.
  assert (E : split_scopes params = set "scopes" (VArr (map VStr (tokens s))) params).
  { unfold split_scopes. now rewrite H. }
  assert (F : split_scopes (set "scopes" (VArr (map VStr (tokens s))) params)
              = set "scopes" (VArr (map VStr (tokens s))) params).
  { unfold split_scopes. now rewrite param_set. }
  now rewrite E, F.
Qed.

(** [comma_scopes_as_array] on [imap, smtp]. *)
Lemma comma_scopes_as_array_witness :
  run (create_asp Sample.signing (Sample.request [("scopes", VStr "imap, smtp")] true))
    Sample.fresh
  = run (create_asp Sample.signing
           (Sample.request [("scopes", VArr [VStr "imap"; VStr "smtp"])] true))
      Sample.fresh.
Proof.
  exact (comma_scopes_as_array Sample.signing
           (Sample.request [("scopes", VStr "imap, smtp")] true) Sample.fresh
           "imap, smtp" eq_refl).
Defined.

(** *** The normalised scopes and the profile test *)

(** X8. For a request that passed validation, the scope list the handler
    normalises is never empty and has no repetition; it is either the
    wildcard alone or a list of scopes of the vocabulary without the
    wildcard; and normalising it again changes nothing. *)
Theorem normalize_shape SCOPES ip_address p value :
  PostASP.validate SCOPES ip_address p = Some value ->
  let scopes := normalize (PostASP.scopes value) in
  scopes <> [] /\ NoDup scopes
  /\ (scopes = ["*"]
      \/ (~ In "*" scopes /\ (forall x, In x scopes -> In x SCOPES)
          /\ PostASP.scopes value = Some scopes))
  /\ normalize (Some scopes) = scopes.
Proof.
  intros V scopes. subst scopes.
  destruct (validate_create_inv _ _ _ _ V) as (_ & _ & _ & S & _).
  unfold normalize.
  destruct (PostASP.scopes value) as [l|].
  - destruct (opt_scopes_inv _ _ _ S) as (_ & N & U & A).
    destruct (includes l "*") eqn:W.
    + repeat apply conj; [discriminate | repeat constructor; cbn; tauto | now left
                         | reflexivity].
    + repeat apply conj; [assumption | assumption | | now rewrite W].
      right. apply includes_false in W. repeat apply conj; [assumption| |reflexivity].
      intros x I. destruct (A x I) as [->|]; [contradiction | assumption].
  - cbn. repeat apply conj; [discriminate | repeat constructor; cbn; tauto | now left
                            | reflexivity].
Qed.

(** [normalize_shape] on a request for [smtp] and [imap]. *)
Lemma normalize_shape_witness :
  let scopes := normalize (Some ["smtp"; "imap"]) in
  scopes <> [] /\ NoDup scopes
  /\ (scopes = ["*"]
      \/ (~ In "*" scopes /\ (forall x, In x scopes -> In x ["imap"; "pop3"; "smtp"])
          /\ Some ["smtp"; "imap"] = Some scopes))
  /\ normalize (Some scopes) = scopes.
Proof.
  exact (normalize_shape ["imap"; "pop3"; "smtp"] (fun _ => false)
           (split_scopes (Sample.request [("scopes", VStr "smtp,imap")] false))
           (Sample.validated (Some ["smtp"; "imap"]) false) eq_refl).
Defined.

(** *** What the create handler calls, and when *)

Lemma profile_conflict_false g scopes :
  profile_conflict g scopes = false
  <-> g = false \/ In "*" scopes \/ (In "imap" scopes /\ In "smtp" scopes).
Proof.
  unfold profile_conflict. rewrite <- !includes_In.
  destruct g, (includes scopes "*"), (includes scopes "imap"), (includes scopes "smtp");
    cbn; intuition discriminate.
Qed.

Lemma normalized_wildcard requested :
  In "*" (normalize requested) <-> normalize requested = ["*"].
Proof.
  split.
  - intros H. now apply normalize_wildcard, includes_In.
  - intros ->. now left.
Qed.

Lemma profile_conflict_false_neg g scopes :
  profile_conflict g scopes = true ->
  (g = false \/ In "*" scopes \/ (In "imap" scopes /\ In "smtp" scopes) -> False)
  /\ g = true.
Proof.
  intros C. split.
  - intros H. apply profile_conflict_false in H. congruence.
  - unfold profile_conflict in C. destruct g; [reflexivity | discriminate].
Qed.

Ltac create_cases O :=
  destruct O;
  repeat match goal with
         | x := _ |- _ => subst x
         end.

(** X9. A validated create request goes on to look the account up exactly
    when it asks for no profile, or its normalised scopes are the wildcard,
    or they hold both [imap] and [smtp]; otherwise it makes no call. *)
Theorem profile_check_decides env params d value :
  PostASP.validate (SCOPES env) (ip_address env) (split_scopes params) = Some value ->
  let scopes := normalize (PostASP.scopes value) in
  let made := snd (run (create_asp env params) d) in
  ((exists rest, made = call_users_findOne (new_ObjectID (PostASP.user value)) :: rest)
   <-> PostASP.generateMobileconfig value = false \/ scopes = ["*"]
       \/ (In "imap" scopes /\ In "smtp" scopes))
  /\ (made = []
      <-> PostASP.generateMobileconfig value = true /\ scopes <> ["*"]
          /\ ~ (In "imap" scopes /\ In "smtp" scopes)).
Proof.
  intros V scopes made. subst scopes made.
  rewrite <- normalized_wildcard, <- profile_conflict_false.
  destruct (profile_conflict _ _) eqn:C.
  - rewrite (conflict_stops env params d value V C). cbn [snd].
    apply profile_conflict_false_neg in C. destruct C as [N G]. split.
    + split; [intros [rest E]; discriminate E | discriminate].
    + split; [intros _ | reflexivity]. repeat apply conj; [assumption | tauto | tauto].
  - pose proof (create_asp_outcome env params d) as O.
    destruct (run (create_asp env params) d) as [[resp d'] made]. cbn [snd].
    assert (R : exists rest,
               made = call_users_findOne (new_ObjectID (PostASP.user value)) :: rest).
    { create_cases O;
        try match goal with
            | H : PostASP.validate _ _ _ = _ |- _ => rewrite V in H
            end;
        try discriminate;
        try match goal with
            | H : Some _ = Some _ |- _ => injection H as <-
            end;
        try congruence; eauto. }
    destruct R as [rest ->]. split.
    + split; [reflexivity | intros _; eauto].
    + split; [discriminate|]. intros (G & W & I).
      apply profile_conflict_false in C.
      destruct C as [C|[C|C]]; [congruence | contradiction | contradiction].
Qed.

(** [profile_check_decides] on a profile request for [pop3] and [smtp]. *)
Lemma profile_check_decides_witness :
  let made :=
    snd (run (create_asp Sample.signing
                (Sample.request [("scopes", VStr "pop3,smtp")] true)) Sample.fresh) in
  made = []
  <-> true = true /\ ["pop3"; "smtp"] <> ["*"]
      /\ ~ (In "imap" ["pop3"; "smtp"] /\ In "smtp" ["pop3"; "smtp"]).
Proof.
  exact (proj2 (profile_check_decides Sample.signing
                  (Sample.request [("scopes", VStr "pop3,smtp")] true) Sample.fresh
                  (Sample.validated (Some ["pop3"; "smtp"]) true) eq_refl)).
Defined.

Lemma users_findOne_found d user userData :
  Mongo.users_findOne d user = inr (Some userData) ->
  Mongo.failure d = None /\ In userData (Mongo.users d) /\ User._id userData = user.
Proof.
  unfold Mongo.users_findOne. destruct (Mongo.failure d); [discriminate|].
  intros H. injection H as H. apply find_some in H. destruct H as [I E].
  apply N.eqb_eq in E. auto.
Qed.

(** X10. The create handler calls the Credential Service only for a
    request that passed validation and the profile test, after it has found
    the account the request names in a working database; it hands over the
    validated request, calls it once, and the database it leaves is the one
    the Credential Service returned. *)
Theorem mint_requires_account env params d resp d' made user data :
  run (create_asp env params) d = (resp, d', made) ->
  In (call_generateASP user data) made ->
  PostASP.validate (SCOPES env) (ip_address env) (split_scopes params) = Some data
  /\ user = new_ObjectID (PostASP.user data)
  /\ profile_conflict (PostASP.generateMobileconfig data)
       (normalize (PostASP.scopes data)) = false
  /\ Mongo.failure d = None
  /\ (exists userData, In userData (Mongo.users d) /\ User._id userData = user)
  /\ d' = snd (generateASP (userHandler env) user data d)
  /\ exists rest,
       made = call_users_findOne user :: call_generateASP user data :: rest
       /\ forall u v, ~ In (call_generateASP u v) rest.
Proof.
  intros R I.
  pose proof (create_asp_outcome env params d) as O. rewrite R in O.
  create_cases O; cbn [In] in I;
    repeat match goal with
           | H : _ \/ _ |- _ => destruct H
           | H : False |- _ => destruct H
           | H : _ = call_generateASP _ _ |- _ => inversion H; clear H; subst
           end;
    match goal with
    | U : Mongo.users_findOne _ _ = inr (Some ?x) |- _ =>
        destruct (users_findOne_found _ _ _ U) as (F & M & J)
    end;
    match goal with
    | G : generateASP _ _ _ _ = _ |- _ => rewrite G
    end;
    repeat apply conj;
    first [ assumption
          | reflexivity
          | solve [eauto]
          | match goal with
            | P : PostASP.generateMobileconfig _ = _ |- profile_conflict _ _ = false =>
                rewrite P; first [assumption | reflexivity]
            end
          | eexists; split; [reflexivity|]; cbn; intros u v A;
            repeat destruct A as [A|A]; try discriminate A; exact A ].
Qed.

(** [mint_requires_account] on a plain request for the sample account. *)
Lemma mint_requires_account_witness :
  Mongo.failure Sample.fresh = None
  /\ (exists userData,
        In userData (Mongo.users Sample.fresh)
        /\ User._id userData = new_ObjectID Sample.andris)
  /\ exists rest,
       snd (run (create_asp Sample.signing (Sample.request [] false)) Sample.fresh)
       = call_users_findOne (new_ObjectID Sample.andris)
           :: call_generateASP (new_ObjectID Sample.andris) (Sample.validated None false)
           :: rest
       /\ forall u v, ~ In (call_generateASP u v) rest.
Proof.
  destruct (mint_requires_account Sample.signing (Sample.request [] false) Sample.fresh
              _ _ _ (new_ObjectID Sample.andris) (Sample.validated None false)
              eq_refl (or_intror (or_introl eq_refl)))
    as (_ & _ & _ & F & U & _ & M).
  repeat split; assumption.
Defined.

Ltac in_calls :=
  repeat match goal with
         | H : In _ (_ :: _) |- _ => cbn [In] in H
         | H : In _ [] |- _ => cbn [In] in H
         | H : _ \/ _ |- _ => destruct H
         | H : False |- _ => destruct H
         | H : call_users_findOne _ = _ |- _ => inversion H; clear H; subst
         | H : call_generateASP _ _ = _ |- _ => inversion H; clear H; subst
         | H : call_getSignedEmailConfig _ = _ |- _ => inversion H; clear H; subst
         end.

(** X11. Creating never deletes and never reads the [asps] collection; the
    database is left untouched unless the Credential Service was called; and
    the signer is called only after the Credential Service, for a request
    that asked for a profile. *)
Theorem create_side_effects env params d resp d' made :
  run (create_asp env params) d = (resp, d', made) ->
  (forall user asp data, ~ In (call_deleteASP user asp data) made)
  /\ (forall user, ~ In (call_asps_find user) made)
  /\ ((forall user data, ~ In (call_generateASP user data) made) -> d' = d)
  /\ forall options,
       In (call_getSignedEmailConfig options) made ->
       exists user data,
         made = [call_users_findOne user; call_generateASP user data;
                 call_getSignedEmailConfig options]
         /\ PostASP.generateMobileconfig data = true.
Proof.
  intros R.
  pose proof (create_asp_outcome env params d) as O. rewrite R in O.
  create_cases O; repeat apply conj;
    try (intros; intros I; in_calls; fail);
    try (intros; reflexivity);
    try (intros N; exfalso; eapply N; cbn; eauto; fail);
    intros o I; in_calls; eauto.
Qed.

(** [create_side_effects] on a profile request that is signed. *)
Lemma create_side_effects_witness :
  let made :=
    snd (run (create_asp Sample.signing (Sample.request [("scopes", VStr "*")] true))
           Sample.fresh) in
  (forall user asp data, ~ In (call_deleteASP user asp data) made)
  /\ (forall user, ~ In (call_asps_find user) made)
  /\ exists user data,
       made = [call_users_findOne user; call_generateASP user data;
               call_getSignedEmailConfig
                 (compose Sample.signing "Thunderbird" Sample.user Sample.minted)]
       /\ PostASP.generateMobileconfig data = true.
Proof.
  cbv zeta.
  destruct (create_side_effects Sample.signing
              (Sample.request [("scopes", VStr "*")] true) Sample.fresh _ _ _ eq_refl)
    as (D & F & _ & S).
  repeat apply conj; [exact D | exact F |].
  apply S. cbn. right. right. left. reflexivity.
Defined.

(** X12. A request that asks for no profile is served without the profile
    settings: two deployments that differ only in configuration, signing
    keys and signer answer it alike. *)
Theorem plain_create_ignores_profile_settings env env' params d value :
  SCOPES env' = SCOPES env ->
  ip_address env' = ip_address env ->
  joi_message env' = joi_message env ->
  userHandler env' = userHandler env ->
  PostASP.validate (SCOPES env) (ip_address env) (split_scopes params) = Some value ->
  PostASP.generateMobileconfig value = false ->
  run (create_asp env' params) d = run (create_asp env params) d.
Proof.
  intros S I J U V G.
  unfold run, create_asp. rewrite S, I, V, G.
  cbn [profile_conflict andb].
  unfold bind, users_findOne, userHandler_generateASP, ret;
    cbn [database calls logged app].
  destruct (Mongo.users_findOne d _) as [err|[userData|]]; try reflexivity.
  cbn [database calls logged app]. rewrite U.
  destruct (generateASP _ _ _ _) as [[err|result] d1]; reflexivity.
Qed.

(** [plain_create_ignores_profile_settings] on the two sample deployments,
    whose signers differ. *)
Lemma plain_create_ignores_profile_settings_witness :
  run (create_asp Sample.failing (Sample.request [("scopes", VStr "imap")] false))
    Sample.fresh
  = run (create_asp Sample.signing (Sample.request [("scopes", VStr "imap")] false))
      Sample.fresh.
Proof.
  exact (plain_create_ignores_profile_settings Sample.signing Sample.failing
           (Sample.request [("scopes", VStr "imap")] false) Sample.fresh
           (Sample.validated (Some ["imap"]) false)
           eq_refl eq_refl eq_refl eq_refl eq_refl eq_refl).
Defined.

(** X13. A create response says [success: true] only when the Credential
    Service has minted a credential, and then its [id] and [password] are
    the ones minted; every other response has an [error] property and no
    [success], [id], [password] or [mobileconfig] property. A
    [mobileconfig] in the response is the base64 form of what the signer
    returned. *)
Theorem create_discloses_on_success env params d resp d' made :
  run (create_asp env params) d = (resp, d', made) ->
  (get "success" resp = VBool true /\ has_key "error" resp = false
   /\ exists user data result,
        In (call_generateASP user data) made
        /\ fst (generateASP (userHandler env) user data d) = inr result
        /\ get "id" resp = VOid (id result)
        /\ get "password" resp = VStr (password result)
        /\ (has_key "mobileconfig" resp = false
            \/ exists options data,
                 In (call_getSignedEmailConfig options) made
                 /\ getSignedEmailConfig env options = inr data
                 /\ get "mobileconfig" resp = VStr (base64 data)))
  \/ (has_key "success" resp = false /\ has_key "error" resp = true
      /\ has_key "id" resp = false /\ has_key "password" resp = false
      /\ has_key "mobileconfig" resp = false).
Proof.
  intros R.
  pose proof (create_asp_outcome env params d) as O. rewrite R in O.
  create_cases O; try (right; repeat split; fail); left;
    (split; [reflexivity|]; split; [reflexivity|]);
    match goal with
    | G : generateASP _ ?u ?v _ = (inr ?r, _) |- _ => exists u, v, r; rewrite G
    end;
    (split; [cbn; tauto|]); repeat (split; [reflexivity|]).
  - left. reflexivity.
  - right. eexists _, data. split; [cbn; tauto|]. split; [eassumption | reflexivity].
Qed.

(** [create_discloses_on_success] on the request whose signing fails: a
    credential was minted and the response has no [password] property. *)
Lemma create_discloses_on_success_witness :
  let '(resp, d', made) :=
    run (create_asp Sample.failing (Sample.request [("scopes", VStr "*")] true))
      Sample.fresh in
  map Asp.secret (Mongo.asps d') = ["rflhmllyegblyybd"]
  /\ has_key "success" resp = false /\ has_key "error" resp = true
  /\ has_key "id" resp = false /\ has_key "password" resp = false
  /\ has_key "mobileconfig" resp = false.
Proof.
  destruct (create_discloses_on_success Sample.failing
              (Sample.request [("scopes", VStr "*")] true) Sample.fresh _ _ _ eq_refl)
    as [(S & _)|H]; [discriminate S|].
  split; [reflexivity | exact H].
Defined.

(** *** Failures of the collaborators *)

Lemma users_findOne_missing d user :
  Mongo.failure d = None ->
  (forall u, In u (Mongo.users d) -> User._id u <> user) ->
  Mongo.users_findOne d user = inr None.
Proof.
  intros F N. unfold Mongo.users_findOne. rewrite F. f_equal.
  destruct (find _ (Mongo.users d)) as [u|] eqn:E; [|reflexivity].
  apply find_some in E. destruct E as [I E]. apply N.eqb_eq in E.
  now destruct (N u I).
Qed.

Lemma users_findOne_failure d user err :
  Mongo.failure d = Some err -> Mongo.users_findOne d user = inl err.
Proof. intros F. unfold Mongo.users_findOne. now rewrite F. Qed.

(** X14. When the Credential Service fails, the create handler answers with
    the message of that error and nothing else (no code, whatever the error
    carries); it leaves the database as the Credential Service returned it
    and does not call the signer, also for a request that asked for a
    profile. *)
Theorem credential_error_passthrough env params d value userData err d1 :
  PostASP.validate (SCOPES env) (ip_address env) (split_scopes params) = Some value ->
  profile_conflict (PostASP.generateMobileconfig value)
    (normalize (PostASP.scopes value)) = false ->
  Mongo.users_findOne d (new_ObjectID (PostASP.user value)) = inr (Some userData) ->
  generateASP (userHandler env) (new_ObjectID (PostASP.user value)) value d
  = (inl err, d1) ->
  run (create_asp env params) d
  = (obj [("error", VStr (message err))], d1,
     [call_users_findOne (new_ObjectID (PostASP.user value));
      call_generateASP (new_ObjectID (PostASP.user value)) value]).
Proof.
  intros V C U G. unfold run, create_asp. rewrite V, C.
  unfold bind, users_findOne, userHandler_generateASP, ret;
    cbn [database calls logged app].
  rewrite U. cbn [database calls logged app]. now rewrite G.
Qed.

(** [credential_error_passthrough] on a deployment whose Credential Service
    cannot mint, for a request with a profile. *)
Lemma credential_error_passthrough_witness :
  code Sample.generation_failed = VStr "InternalDatabaseError"
  /\ run (create_asp Sample.refusing (Sample.request [("scopes", VStr "*")] true))
       Sample.fresh
     = (obj [("error", VStr "Database Error, failed to generate password")],
        Sample.fresh,
        [call_users_findOne (new_ObjectID Sample.andris);
         call_generateASP (new_ObjectID Sample.andris)
           (Sample.validated (Some ["*"]) true)]).
Proof.
  split; [reflexivity|].
  exact (credential_error_passthrough Sample.refusing
           (Sample.request [("scopes", VStr "*")] true)
           Sample.fresh (Sample.validated (Some ["*"]) true) Sample.user
           Sample.generation_failed Sample.fresh
           eq_refl eq_refl eq_refl eq_refl).
Defined.

(** X15. A validated create request that passes the profile test, on a
    database whose driver fails, is answered [InternalDatabaseError] with
    the driver's message after [MongoDB Error: ]; on a working database
    without an account of that id it is answered [UserNotFound]. Either way
    the lookup is the only call and nothing is minted. *)
Theorem create_lookup_failure env params d value :
  PostASP.validate (SCOPES env) (ip_address env) (split_scopes params) = Some value ->
  profile_conflict (PostASP.generateMobileconfig value)
    (normalize (PostASP.scopes value)) = false ->
  let user := new_ObjectID (PostASP.user value) in
  (forall err,
      Mongo.failure d = Some err ->
      run (create_asp env params) d
      = (obj [("error", VStr ("MongoDB Error: " ++ message err));
              ("code", VStr "InternalDatabaseError")], d, [call_users_findOne user]))
  /\ (Mongo.failure d = None ->
      (forall u, In u (Mongo.users d) -> User._id u <> user) ->
      run (create_asp env params) d
      = (obj [("error", VStr "This user does not exist"); ("code", VStr "UserNotFound")],
         d, [call_users_findOne user])).
Proof.
  intros V C user. split.
  - intros err F. unfold run, create_asp. rewrite V, C.
    unfold bind, users_findOne, ret; cbn [database calls logged app].
    fold user. now rewrite (users_findOne_failure d user err F).
  - intros F N. unfold run, create_asp. rewrite V, C.
    unfold bind, users_findOne, ret; cbn [database calls logged app].
    fold user. now rewrite (users_findOne_missing d user F N).
Qed.

(** [create_lookup_failure] on a database without accounts. *)
Lemma create_lookup_failure_witness :
  run (create_asp Sample.signing (Sample.request [] false)) Sample.deserted
  = (obj [("error", VStr "This user does not exist"); ("code", VStr "UserNotFound")],
     Sample.deserted, [call_users_findOne (new_ObjectID Sample.andris)]).
Proof.
  refine (proj2 (create_lookup_failure Sample.signing (Sample.request [] false)
                   Sample.deserted (Sample.validated None false) eq_refl eq_refl)
            eq_refl _).
  intros u [].
Defined.

(** *** Listing and deleting *)

(** X16. Listing only reads: whatever the request and the database, the
    list handler leaves the database as it was, calls nothing but the two
    queries, and answers the same when it is run again. *)
Theorem list_only_reads env params d :
  let '(resp, d', made) := run (list_asps env params) d in
  d' = d
  /\ (forall c, In c made ->
        exists user, c = call_users_findOne user \/ c = call_asps_find user)
  /\ run (list_asps env params) d' = (resp, d', made).
Proof.
  destruct (run (list_asps env params) d) as [[resp d'] made] eqn:R.
  assert (H : d' = d /\ forall c, In c made ->
                exists user, c = call_users_findOne user \/ c = call_asps_find user).
  { revert R. unfold run, list_asps.
    destruct (GetASPs.validate params) as [value|].
    - unfold bind, users_findOne, asps_find, ret; cbn [database calls logged app].
      destruct (Mongo.users_findOne d _) as [err|[userData|]];
        cbn [database calls logged app].
      + intros R. injection R as <- <- <-. split; [reflexivity|].
        intros c [<-|[]]. eauto.
      + destruct (Mongo.asps_find d _) as [err|found];
          intros R; injection R as <- <- <-; (split; [reflexivity|]);
          intros c [<-|[<-|[]]]; eauto.
      + intros R. injection R as <- <- <-. split; [reflexivity|].
        intros c [<-|[]]. eauto.
    - cbn. intros R. injection R as <- <- <-. split; [reflexivity|]. intros c []. }
  destruct H as [-> H]. repeat split; assumption.
Qed.

(** X17. A validated list request on a database whose driver fails is
    answered [InternalDatabaseError] with the driver's message after
    [MongoDB Error: ]; on a working database without an account of that id
    it is answered [UserNotFound], and the [asps] collection is not
    queried. *)
Theorem list_lookup_failure env params d value :
  GetASPs.validate params = Some value ->
  let user := new_ObjectID (GetASPs.user value) in
  (forall err,
      Mongo.failure d = Some err ->
      run (list_asps env params) d
      = (obj [("error", VStr ("MongoDB Error: " ++ message err));
              ("code", VStr "InternalDatabaseError")], d, [call_users_findOne user]))
  /\ (Mongo.failure d = None ->
      (forall u, In u (Mongo.users d) -> User._id u <> user) ->
      run (list_asps env params) d
      = (obj [("error", VStr "This user does not exist"); ("code", VStr "UserNotFound")],
         d, [call_users_findOne user])).
Proof.
  intros V user. split.
  - intros err F. unfold run, list_asps. rewrite V.
    unfold bind, users_findOne, ret; cbn [database calls logged app].
    fold user. now rewrite (users_findOne_failure d user err F).
  - intros F N. unfold run, list_asps. rewrite V.
    unfold bind, users_findOne, ret; cbn [database calls logged app].
    fold user. now rewrite (users_findOne_missing d user F N).
Qed.

(** [list_lookup_failure] on a database without accounts. *)
Lemma list_lookup_failure_witness :
  run (list_asps Sample.signing Sample.listing) Sample.deserted
  = (obj [("error", VStr "This user does not exist"); ("code", VStr "UserNotFound")],
     Sample.deserted, [call_users_findOne (new_ObjectID Sample.andris)]).
Proof.
  refine (proj2 (list_lookup_failure Sample.signing Sample.listing Sample.deserted
                   {| GetASPs.user := Sample.andris |} eq_refl) eq_refl _).
  intros u [].
Defined.

(** X18. Deleting looks nothing up: a validated request goes straight to
    the Credential Service, once, with the ObjectIDs of the [user] and [asp]
    it names, and the database left is the one the Credential Service
    returned; a request that fails validation makes no call and leaves the
    database as it was. *)
Theorem delete_single_call env params d :
  let '(resp, d', made) := run (delete_asp env params) d in
  match DeleteASP.validate (ip_address env) params with
  | Some value =>
      let user := new_ObjectID (DeleteASP.user value) in
      let asp := new_ObjectID (DeleteASP.asp value) in
      made = [call_deleteASP user asp value]
      /\ d' = snd (deleteASP (userHandler env) user asp value d)
      /\ (resp = obj [("success", VBool true)]
          <-> fst (deleteASP (userHandler env) user asp value d) = None)
  | None => made = [] /\ d' = d
  end.
Proof.
  unfold run, delete_asp.
  destruct (DeleteASP.validate _ _) as [value|]; [|cbn; auto].
  unfold bind, userHandler_deleteASP, ret; cbn [database calls app].
  destruct (deleteASP _ _ _ _ _) as [[err|] d1]; cbn; repeat split;
    try discriminate; auto.
Qed.

(** *** The profile template *)

Lemma expand_cons c r matched before after :
  c <> "$"%char ->
  expand (String c r) matched before after = String c (expand r matched before after).
Proof.
  intros N. destruct c as [[] [] [] [] [] [] [] []]; try reflexivity.
  now destruct N.
Qed.

Lemma expand_plain by_ matched before after :
  ~ In "$"%char (list_ascii_of_string by_) -> expand by_ matched before after = by_.
Proof.
  induction by_ as [|c r IH]; [reflexivity|]. cbn [list_ascii_of_string In]. intros N.
  rewrite expand_cons by tauto. rewrite IH by tauto. reflexivity.
Qed.

Lemma prefix_split p s : prefix p s = true -> exists t, s = p ++ t.
Proof.
  revert s. induction p as [|a p IH]; intros s.
  - intros _. now exists s.
  - destruct s as [|b s]; cbn; [discriminate|].
    destruct (ascii_dec a b) as [E|]; [|discriminate].
    subst b. intros H. destruct (IH s H) as [t ->]. now exists t.
Qed.

Lemma replace_scan_plain_seen by_ s :
  ~ In "$"%char (list_ascii_of_string by_) ->
  forall skip seen seen',
    replace_scan skip seen s by_ = replace_scan skip seen' s by_.
Proof.
  intros N. induction s as [|c r IH]; intros skip seen seen'; [reflexivity|].
  cbn [replace_scan]. destruct skip as [|k]; [|apply IH].
  destruct (prefix pat_email (String c r)).
  - rewrite !(expand_plain _ _ _ _ N). f_equal. apply IH.
  - f_equal. apply IH.
Qed.

Lemma replace_scan_absent by_ s seen :
  (forall a b, s <> a ++ pat_email ++ b) -> replace_scan 0 seen s by_ = s.
Proof.
  revert seen. induction s as [|c r IH]; intros seen A; [reflexivity|].
  cbn [replace_scan].
  destruct (prefix pat_email (String c r)) eqn:P.
  - apply prefix_split in P. destruct P as [t P]. now destruct (A "" t).
  - f_equal. apply IH. intros a b E. apply (A (String c a) b). cbn. now rewrite E.
Qed.

Lemma prefix_nil s : prefix "" s = true.
Proof. now destruct s. Qed.

Lemma prefix_head a p c s : a <> c -> prefix (String a p) (String c s) = false.
Proof.
  intros N. cbn [prefix]. destruct (ascii_dec a c); [contradiction | reflexivity].
Qed.

Lemma replace_scan_first by_ a b seen :
  ~ In "$"%char (list_ascii_of_string by_) ->
  ~ In "{"%char (list_ascii_of_string a) ->
  replace_scan 0 seen (a ++ "{email}" ++ b) by_
  = a ++ by_ ++ replace_scan 0 EmptyString b by_.
Proof.
  intros N. revert seen. induction a as [|c a IH]; intros seen B.
  - cbn. rewrite prefix_nil, (expand_plain _ _ _ _ N). f_equal.
    now apply replace_scan_plain_seen.
  - cbn [list_ascii_of_string In] in B.
    change (String c a ++ "{email}" ++ b) with (String c (a ++ "{email}" ++ b)).
    cbn [replace_scan].
    assert (P : prefix pat_email (String c (a ++ "{email}" ++ b)) = false).
    { apply prefix_head. intros E. apply B. now left. }
    rewrite P. cbn [append]. f_equal. apply IH. tauto.
Qed.

(** X19. Substituting the address in a template string leaves a string
    without [{email}] as it is. When the address holds no [$], a
    placeholder that follows text without an opening brace is replaced by
    the address and the text after it is treated in the same way. *)
Theorem replace_email_substitutes address :
  (forall s, (forall a b, s <> a ++ "{email}" ++ b) -> replace_email s address = s)
  /\ (~ In "$"%char (list_ascii_of_string address) ->
      forall a b,
        ~ In "{"%char (list_ascii_of_string a) ->
        replace_email (a ++ "{email}" ++ b) address
        = a ++ address ++ replace_email b address).
Proof.
  split.
  - intros s A. now apply replace_scan_absent.
  - intros N a b B. unfold replace_email. now apply replace_scan_first.
Qed.

(** [replace_email_substitutes] on the description of the sample template. *)
Lemma replace_email_substitutes_witness :
  replace_email "WildDuck" "andris@example.com" = "WildDuck"
  /\ replace_email ("WildDuck (" ++ "{email}" ++ ")") "andris@example.com"
     = "WildDuck (" ++ "andris@example.com" ++ replace_email ")" "andris@example.com".
Proof.
  split.
  - apply (proj1 (replace_email_substitutes "andris@example.com") "WildDuck").
    intros a b E.
    repeat (destruct a as [|? a]; cbn in E; [discriminate E | injection E as _ E]).
    destruct a; discriminate E.
  - apply (proj2 (replace_email_substitutes "andris@example.com")).
    + cbn. intros H. repeat (destruct H as [H|H]; [discriminate H|]). exact H.
    + cbn. intros H. repeat (destruct H as [H|H]; [discriminate H|]). exact H.
Defined.

Lemma assoc_profileOpts env userData k :
  assoc k (profileOpts env userData)
  = option_map (fun v => trim (replace_email v (User.address userData)))
      (assoc k (match Config.api_mobileconfig (config env) with
                | Some t => t
                | None => []
                end)).
Proof.
  unfold profileOpts.
  induction (match Config.api_mobileconfig (config env) with Some t => t | None => [] end)
    as [|[k' v] r IH]; [reflexivity|].
  cbn. destruct (k' =? k); [reflexivity | assumption].
Qed.

(** X20. The composed descriptor takes its texts from the template by key:
    a key the template lacks (or every key, when no template is configured)
    leaves [displayDescription] and [accountDescription] undefined and
    makes the identifier the text [undefined], a dot and the user name; a
    key the template has gives the template string with the address
    substituted, trimmed. *)
Theorem template_keys env description userData result :
  let template :=
    match Config.api_mobileconfig (config env) with Some t => t | None => [] end in
  let from k :=
    option_map (fun v => trim (replace_email v (User.address userData)))
      (assoc k template) in
  let options := compose env description userData result in
  Mobileconfig.displayDescription options = opt_str (from "displayDescription")
  /\ Mobileconfig.accountDescription options = opt_str (from "accountDescription")
  /\ Mobileconfig.identifier options
     = VStr (match from "identifier" with Some v => v | None => "undefined" end
             ++ "." ++ User.username userData)
  /\ (assoc "identifier" template = None ->
      Mobileconfig.identifier options = VStr ("undefined." ++ User.username userData))
  /\ (Config.api_mobileconfig (config env) = None ->
      Mobileconfig.displayDescription options = VUndef
      /\ Mobileconfig.accountDescription options = VUndef).
Proof.
  cbv zeta. cbn [compose Mobileconfig.displayDescription Mobileconfig.accountDescription
                 Mobileconfig.identifier].
  rewrite !assoc_profileOpts. unfold concat_str.
  repeat apply conj; try reflexivity.
  - intros ->. reflexivity.
  - intros ->. split; reflexivity.
Qed.

(** [template_keys] on a deployment without a template. *)
Lemma template_keys_witness :
  let options := compose Sample.bare "Thunderbird" Sample.user Sample.minted in
  Mobileconfig.identifier options = VStr "undefined.andris"
  /\ Mobileconfig.displayDescription options = VUndef
  /\ Mobileconfig.accountDescription options = VUndef.
Proof.
  cbv zeta.
  destruct (template_keys Sample.bare "Thunderbird" Sample.user Sample.minted)
    as (_ & _ & _ & I & D).
  split; [exact (I eq_refl) | exact (D eq_refl)].
Defined.

(** *** The Credential Service of the sample deployments *)

(** The id it assigns is above every id in the collection and every id
    generated before, so it is not issued twice, also after a deletion. *)
Lemma next_id_fresh d :
  (Mongo.issued d < CredentialService.next_id d)%N
  /\ forall asp, In asp (Mongo.asps d) -> (Asp._id asp < CredentialService.next_id d)%N.
Proof.
  unfold CredentialService.next_id. split; [lia|].
  intros asp I.
  assert (H : (Asp._id asp <= fold_right N.max 0 (map Asp._id (Mongo.asps d)))%N).
  { induction (Mongo.asps d) as [|a r IH]; [contradiction|].
    cbn. destruct I as [->|I]; [lia|]. specialize (IH I). lia. }
  lia.
Qed.

Lemma generateASP_issues secret now user data d result d1 :
  CredentialService.generateASP secret now user data d = (inr result, d1) ->
  id result = CredentialService.next_id d
  /\ Mongo.issued d1 = id result
  /\ (Mongo.issued d < id result)%N.
Proof.
  unfold CredentialService.generateASP. destruct (Mongo.failure d); [discriminate|].
  intros H. injection H as <- <-. cbn. repeat split. apply next_id_fresh.
Qed.

Lemma deleteASP_keeps_issued not_found user asp data d r d1 :
  CredentialService.deleteASP not_found user asp data d = (r, d1) ->
  Mongo.issued d1 = Mongo.issued d.
Proof.
  unfold CredentialService.deleteASP. destruct (Mongo.failure d).
  - intros H. now injection H as _ <-.
  - destruct (existsb _ _); intros H; now injection H as _ <-.
Qed.

(** The scopes it stores are the wildcard alone or hold no wildcard. *)
Lemma stored_scopes_exclusive requested :
  CredentialService.stored_scopes requested = ["*"]
  \/ ~ In "*" (CredentialService.stored_scopes requested).
Proof.
  unfold CredentialService.stored_scopes.
  destruct requested as [[|x l]|]; auto.
  destruct (includes (x :: l) "*") eqn:W; [now left | right].
  now apply includes_false.
Qed.
